(** * A shallow embedding of the multi-agent plan / execute / verify system

    The development follows the Python sources:
    - [models.py]: the enumerations and the data classes;
    - [agents/base_agent.py]: the running performance metrics;
    - [agents/planner_agent.py]: complexity analysis, strategy choice, the three
      decomposition templates and [replan];
    - [agents/execution_agent.py]: the ready-set scheduler;
    - [agents/verification_agent.py]: the per-category scoring rules and their
      aggregation;
    - [multi_agent_system.py]: the bounded plan / execute / verify / replan loop
      and the system metrics.

    Conventions of the embedding.
    - A Python [str] is the list of its code points ([pystr]); literals of the
      sources are written as Rocq strings and decoded from UTF-8 by [U].
    - A Python [float] is an exact rational ([Q]) wherever the code only adds,
      multiplies, divides and compares; the single place where binary rounding
      decides an integer result, [int(estimated_time * 1.2)] in [replan], is
      computed on binary64 values.
    - What the interpreter and its surroundings contribute (the clock, fresh
      uuids, Unicode case mapping, number formatting and the registered work
      functions) is an interface, [Runtime]; all functions thread a [World].
    - A Python exception is a value of [Exc]; a function that may raise returns
      [Exc + A].  A loop that may not terminate takes fuel and returns [None]
      when the fuel runs out. *)

From Stdlib Require Import ZArith QArith Qround Floats String Ascii Lia Lqa.
From stdpp Require Import base list gmap sets pretty.

Local Open Scope Z_scope.

(** ** Python strings *)

Abbreviation pystr := (list N).

Fixpoint bytes_of_string (s : string) : list N :=
  match s with
  | EmptyString => []
  | String a r => N_of_ascii a :: bytes_of_string r
  end.

(** UTF-8 decoding of a literal: [pending] continuation bytes are still to be
    read into the code point accumulated in [acc]. *)
Fixpoint utf8_decode (bs : list N) (acc : N) (pending : nat) : pystr :=
  match bs with
  | [] => []
  | b :: rest =>
      match pending with
      | O =>
          if (b <? 128)%N then b :: utf8_decode rest 0%N O
          else if (b <? 224)%N then utf8_decode rest (b mod 32)%N 1%nat
          else if (b <? 240)%N then utf8_decode rest (b mod 16)%N 2%nat
          else utf8_decode rest (b mod 8)%N 3%nat
      | S O => (acc * 64 + b mod 64)%N :: utf8_decode rest 0%N O
      | S p => utf8_decode rest (acc * 64 + b mod 64)%N p
      end
  end.

Definition U (s : string) : pystr := utf8_decode (bytes_of_string s) 0%N O.

(** [needle in hay] on two strings. *)
Fixpoint is_prefix (p s : pystr) : bool :=
  match p, s with
  | [], _ => true
  | _ :: _, [] => false
  | a :: p', b :: s' => (a =? b)%N && is_prefix p' s'
  end.

Fixpoint contains (needle hay : pystr) : bool :=
  is_prefix needle hay ||
  match hay with
  | [] => false
  | _ :: hay' => contains needle hay'
  end.

(** The code points on which [str.split()] without argument separates. *)
Definition isspace (c : N) : bool :=
  ((9 <=? c) && (c <=? 13) || (28 <=? c) && (c <=? 32)
   || (c =? 133) || (c =? 160) || (c =? 5760)
   || (8192 <=? c) && (c <=? 8202)
   || (c =? 8232) || (c =? 8233) || (c =? 8239) || (c =? 8287)
   || (c =? 12288))%N.

(** [s.split()]: the maximal runs of non-space characters; [cur] is the run
    being read, in reverse. *)
Fixpoint split_from (s : pystr) (cur : pystr) : list pystr :=
  match s with
  | [] => match cur with [] => [] | _ => [rev cur] end
  | c :: s' =>
      if isspace c then
        match cur with
        | [] => split_from s' []
        | _ => rev cur :: split_from s' []
        end
      else split_from s' (c :: cur)
  end.

Definition split (s : pystr) : list pystr := split_from s [].

(** [sep.join(parts)]. *)
Fixpoint join (sep : pystr) (parts : list pystr) : pystr :=
  match parts with
  | [] => []
  | [p] => p
  | p :: rest => p ++ sep ++ join sep rest
  end.

(** [str(n)] for an integer. *)
Definition str_of_Z (z : Z) : pystr := bytes_of_string (pretty z).

(** ** Python numbers *)

(** [int(x)] for a rational: truncation toward zero. *)
Definition int_of_Q (q : Q) : Z := Z.quot (Qnum q) (Zpos (Qden q)).

Definition QofZ (z : Z) : Q := inject_Z z.
Definition Qofnat (n : nat) : Q := inject_Z (Z.of_nat n).

(** Decimal constants of the sources. *)
Definition dec (num : Z) (den : positive) : Q := Qmake num den.

(** [float(z)]: the binary64 value nearest to the integer (ties to even);
    infinite when the integer is too large, where Python raises. *)
Definition float_of_Z (z : Z) : float :=
  SF2Prim (binary_normalize prec emax z 0 false).

(** [int(f)] for a binary64 value: truncation toward zero; Python raises on an
    infinity and on a NaN. *)
Definition int_of_float (f : float) : option Z :=
  match Prim2SF f with
  | S754_zero _ => Some 0
  | S754_finite s m e =>
      let mag := match e with
                 | Z0 => Zpos m
                 | Zpos p => Z.shiftl (Zpos m) (Zpos p)
                 | Zneg p => Z.shiftr (Zpos m) (Zpos p)
                 end in
      Some (if s then - mag else mag)
  | S754_infinity _ => None
  | S754_nan => None
  end.

(** The literal [1.2]: the binary64 value nearest to 12/10. *)
Definition float_1_2 : float := 0x1.3333333333333p+0%float.

(** ** models.py *)

Inductive TaskStatus :=
  | PENDING | IN_PROGRESS | COMPLETED | FAILED | NEEDS_REPLANNING.

Inductive TaskPriority := LOW | MEDIUM | HIGH | CRITICAL.

(** [TaskPriority.value]. *)
Definition priority_value (p : TaskPriority) : Z :=
  match p with LOW => 1 | MEDIUM => 2 | HIGH => 3 | CRITICAL => 4 end.

#[global] Instance TaskStatus_eq_dec : EqDecision TaskStatus.
Proof. solve_decision. Defined.

#[global] Instance TaskPriority_eq_dec : EqDecision TaskPriority.
Proof. solve_decision. Defined.

(** Values of type [Any]: what an output payload is made of.  A [dict] keeps
    its items in insertion order. *)
#[warnings="-register-all"]
Inductive PyVal :=
  | PNone
  | PBool (b : bool)
  | PInt (z : Z)
  | PFloat (q : Q)
  | PStr (s : pystr)
  | PList (l : list PyVal)
  | PDict (d : list (pystr * PyVal)).

Record Task := mkTask {
  t_id : pystr;
  t_title : pystr;
  t_description : pystr;
  t_priority : TaskPriority;
  t_status : TaskStatus;
  t_created_at : Q;
  t_updated_at : Q;
  t_requirements : list pystr;
  t_expected_output : pystr
}.

Record SubTask := mkSubTask {
  st_id : pystr;
  st_parent_task_id : pystr;
  st_title : pystr;
  st_description : pystr;
  st_order : Z;
  st_status : TaskStatus;
  st_estimated_time : Z;
  st_dependencies : list pystr
}.

Record Plan := mkPlan {
  p_id : pystr;
  p_task_id : pystr;
  p_subtasks : list SubTask;
  p_estimated_total_time : Z;
  p_created_at : Q;
  p_agent_id : pystr
}.

Record ExecutionResult := mkExecutionResult {
  er_id : pystr;
  er_task_id : pystr;
  er_subtask_id : option pystr;
  er_success : bool;
  er_output : PyVal;
  er_error_message : option pystr;
  er_execution_time : Z;
  er_timestamp : Q
}.

Record VerificationResult := mkVerificationResult {
  vr_id : pystr;
  vr_task_id : pystr;
  vr_passed : bool;
  vr_quality_score : Q;
  vr_accuracy_score : Q;
  vr_issues_found : list pystr;
  vr_recommendations : list pystr;
  vr_timestamp : Q
}.

Definition set_task_status (s : TaskStatus) (t : Task) : Task :=
  mkTask (t_id t) (t_title t) (t_description t) (t_priority t) s
         (t_created_at t) (t_updated_at t) (t_requirements t)
         (t_expected_output t).

Definition set_subtask_status (s : TaskStatus) (st : SubTask) : SubTask :=
  mkSubTask (st_id st) (st_parent_task_id st) (st_title st)
            (st_description st) (st_order st) s (st_estimated_time st)
            (st_dependencies st).

Definition set_estimated_time (t : Z) (st : SubTask) : SubTask :=
  mkSubTask (st_id st) (st_parent_task_id st) (st_title st)
            (st_description st) (st_order st) (st_status st) t
            (st_dependencies st).

(** ** Exceptions and the runtime interface *)

Inductive Exc :=
  | TypeError
  | AttributeError
  | ValueError
  | OverflowError
  | Raised (msg : pystr).

(** Sequencing of computations that may raise. *)
#[global] Instance exc_ret : MRet (sum Exc) := fun A x => inr x.
#[global] Instance exc_bind : MBind (sum Exc) :=
  fun A B f m => match m with inl e => inl e | inr x => f x end.

(** The keys of [ExecutionAgent.execution_strategies]. *)
Inductive ExecStrategy :=
  | SAnalise | SDesign | SImplementacao | STeste
  | SDocumentacao | SSetup | SIntegracao | SOtimizacao.

(** The format specifications used in the issue messages. *)
Inductive NumFormat := Fmt_2f | Fmt_1f | Fmt_1pct | Fmt_str.

Class Runtime := {
  World : Type;
  (** [time.time()] and [datetime.now()]: a reading and the world after it. *)
  time_time : World -> Q * World;
  (** [str(uuid.uuid4())]. *)
  uuid4 : World -> pystr * World;
  (** [str.lower]. *)
  str_lower : pystr -> pystr;
  (** [format(x, spec)] for a number, and [str(x)]. *)
  format_num : NumFormat -> PyVal -> pystr;
  (** [list(set(xs))]: the distinct elements, in the order in which the
      interpreter iterates over the set. *)
  list_of_set : list pystr -> list pystr;
  list_of_set_perm : forall xs, list_of_set xs ≡ₚ remove_dups xs;
  (** The work function registered for a strategy: its payload, or the message
      of the exception it raised. *)
  run_strategy : ExecStrategy -> SubTask -> World -> (pystr + PyVal) * World
}.

(** ** agents/base_agent.py *)

Record Metrics := mkMetrics {
  tasks_completed : nat;
  success_rate : Q;
  average_execution_time : Q
}.

Definition initial_metrics : Metrics := mkMetrics 0 0%Q 0%Q.

Record Agent := mkAgent {
  agent_id : pystr;
  agent_name : pystr;
  performance_metrics : Metrics
}.

(** [BaseAgent.update_performance]. *)
Definition update_performance (execution_time : Q) (success : bool)
    (m : Metrics) : Metrics :=
  let total_tasks := S (tasks_completed m) in
  let current_successes :=
    (success_rate m * Qofnat (total_tasks - 1))%Q in
  let current_successes :=
    if success then (current_successes + 1)%Q else current_successes in
  let current_avg := average_execution_time m in
  mkMetrics total_tasks
    (current_successes / Qofnat total_tasks)%Q
    ((current_avg * Qofnat (total_tasks - 1) + execution_time)
       / Qofnat total_tasks)%Q.

Definition agent_update_performance (execution_time : Q) (success : bool)
    (a : Agent) : Agent :=
  mkAgent (agent_id a) (agent_name a)
          (update_performance execution_time success (performance_metrics a)).

(** [n] observations with the same duration and outcome. *)
Fixpoint repeat_update (n : nat) (d : Q) (success : bool) (m : Metrics)
    : Metrics :=
  match n with
  | O => m
  | S k => update_performance d success (repeat_update k d success m)
  end.

(** ** Console output

    [BaseAgent.log_activity] prints a time-stamped line for the agent, followed
    by its details.  The output is kept as the list of the activities logged,
    oldest first; each constructor stands for one message of the sources. *)

Inductive Activity :=
  (** "Iniciando planejamento para tarefa: {title}" *)
  | LogPlanningStarted (title : pystr)
  (** "Planejamento concluído com sucesso", with subtasks_created,
      estimated_time and strategy_used *)
  | LogPlanningDone (subtasks_created : nat) (total_time : Z) (strategy : pystr)
  (** "Re-planejando tarefa {title} devido a problemas", with the issues *)
  | LogReplanning (title : pystr) (issues : list pystr)
  (** "Iniciando execução do plano {plan.id}" *)
  | LogExecutionStarted (plan_id : pystr)
  (** "Possível dependência circular detectada" *)
  | LogCircularDependency
  (** "Falha na execução da subtarefa {title}" *)
  | LogSubtaskFailed (title : pystr)
  (** "Execução do plano concluída", with total_subtasks, successful, failed *)
  | LogExecutionDone (total_subtasks successful failed : nat)
  (** "Executando subtarefa: {title}" *)
  | LogSubtaskStarted (title : pystr)
  (** "Subtarefa {title} executada com sucesso" *)
  | LogSubtaskSucceeded (title : pystr)
  (** "Erro na execução da subtarefa {title}: {e}" *)
  | LogSubtaskError (title : pystr) (msg : pystr)
  (** "Iniciando verificação para tarefa: {title}" *)
  | LogVerificationStarted (title : pystr)
  (** "Verificação concluída", with passed, the two scores and issues_found *)
  | LogVerificationDone (passed : bool) (quality accuracy : Q) (issues : nat)
  (** "Erro na verificação: {e}" *)
  | LogVerificationError (e : Exc).

Record LogLine := mkLogLine {
  log_timestamp : Q;
  log_agent_name : pystr;
  log_agent_id : pystr;
  log_activity_of : Activity
}.

Section WithRuntime.
Context {RT : Runtime}.

(** The world together with what has been printed so far. *)
Record IO := mkIO {
  io_world : World;
  io_out : list LogLine
}.

Definition io_time (io : IO) : Q * IO :=
  let '(t, w) := time_time (io_world io) in (t, mkIO w (io_out io)).

Definition io_uuid4 (io : IO) : pystr * IO :=
  let '(u, w) := uuid4 (io_world io) in (u, mkIO w (io_out io)).

(** [BaseAgent.log_activity]; the line shows the first eight characters of
    the agent's id. *)
Definition log_activity (a : Agent) (act : Activity) (io : IO) : IO :=
  let '(timestamp, io) := io_time io in
  mkIO (io_world io)
       (io_out io ++ [mkLogLine timestamp (agent_name a)
                                (take 8 (agent_id a)) act]).

(** [Plan(...)] with its [__post_init__]: an empty id is replaced by a fresh
    uuid (the [created_at] passed by both callers is never empty). *)
Definition new_Plan (id task_id : pystr) (subtasks : list SubTask)
    (total : Z) (created_at : Q) (agent : pystr) (io : IO) : Plan * IO :=
  match id with
  | [] => let '(u, io) := io_uuid4 io in
          (mkPlan u task_id subtasks total created_at agent, io)
  | _ => (mkPlan id task_id subtasks total created_at agent, io)
  end.

(** ** agents/planner_agent.py *)

Inductive Complexity := low | medium | high.

#[global] Instance Complexity_eq_dec : EqDecision Complexity.
Proof. solve_decision. Defined.

(** The keys of [PlannerAgent.planning_strategies]. *)
Inductive Strategy := sequential | parallel | hybrid.

Definition strategy_name (s : Strategy) : pystr :=
  match s with
  | sequential => U "sequential"
  | parallel => U "parallel"
  | hybrid => U "hybrid"
  end.

(** [PlannerAgent._analyze_complexity]: the counter [complexity_factors] goes
    through the five tests in the order of the source. *)
Definition _analyze_complexity (task : Task) : Complexity :=
  let complexity_factors := 0 in
  let complexity_factors :=
    if (5 <? length (t_requirements task))%nat
    then complexity_factors + 1 else complexity_factors in
  let complexity_factors :=
    if (100 <? length (split (t_description task)))%nat
    then complexity_factors + 1 else complexity_factors in
  let complexity_factors :=
    if bool_decide (t_priority task ∈ [HIGH; CRITICAL])
    then complexity_factors + 1 else complexity_factors in
  let complexity_factors :=
    if contains (U "integração") (str_lower (t_description task))
    then complexity_factors + 1 else complexity_factors in
  let complexity_factors :=
    if contains (U "api") (str_lower (t_description task))
    then complexity_factors + 1 else complexity_factors in
  if 3 <=? complexity_factors then high
  else if 1 <=? complexity_factors then medium
  else low.

(** [PlannerAgent._choose_strategy]. *)
Definition _choose_strategy (complexity : Complexity)
    (priority : TaskPriority) : Strategy :=
  if bool_decide (complexity = high) || bool_decide (priority = CRITICAL)
  then hybrid
  else if bool_decide (complexity = medium) then parallel
  else sequential.

(** The loop shared by the three templates:
    [for i, (title, description, time_est, deps) in enumerate(specs, 1)]. *)
Fixpoint enumerate_subtasks (task : Task) (i : Z)
    (specs : list (pystr * pystr * Z * list pystr)) : list SubTask :=
  match specs with
  | [] => []
  | (title, description, time_est, deps) :: rest =>
      mkSubTask (str_of_Z i) (t_id task) title description i PENDING
                time_est deps
      :: enumerate_subtasks task (i + 1) rest
  end.

Definition base_subtasks : list (pystr * pystr * Z * list pystr) :=
  [ (U "Análise de Requisitos", U "Analisar e documentar todos os requisitos", 30, []);
    (U "Design da Solução", U "Criar design e arquitetura da solução", 45, [U "1"]);
    (U "Implementação", U "Implementar a solução conforme o design", 120, [U "2"]);
    (U "Testes", U "Executar testes e validações", 60, [U "3"]);
    (U "Documentação", U "Criar documentação final", 30, [U "4"]) ].

Definition parallel_subtasks : list (pystr * pystr * Z * list pystr) :=
  [ (U "Análise de Requisitos", U "Analisar e documentar todos os requisitos", 30, []);
    (U "Pesquisa de Tecnologias", U "Pesquisar tecnologias e ferramentas", 45, []);
    (U "Design da Arquitetura", U "Criar arquitetura do sistema", 60, [U "1"]);
    (U "Setup do Ambiente", U "Configurar ambiente de desenvolvimento", 30, [U "2"]);
    (U "Implementação Core", U "Implementar funcionalidades principais", 90, [U "3"; U "4"]);
    (U "Implementação UI", U "Implementar interface do usuário", 60, [U "3"; U "4"]);
    (U "Testes Unitários", U "Criar e executar testes unitários", 45, [U "5"]);
    (U "Testes de Integração", U "Executar testes de integração", 30, [U "5"; U "6"]);
    (U "Documentação", U "Criar documentação completa", 40, [U "7"; U "8"]) ].

Definition hybrid_subtasks : list (pystr * pystr * Z * list pystr) :=
  [ (U "Análise Detalhada", U "Análise profunda de requisitos e restrições", 45, []);
    (U "Prototipagem", U "Criar protótipo inicial", 60, [U "1"]);
    (U "Validação do Protótipo", U "Validar protótipo com stakeholders", 30, [U "2"]);
    (U "Arquitetura Detalhada", U "Definir arquitetura detalhada", 75, [U "3"]);
    (U "Setup Avançado", U "Configurar ambiente e ferramentas", 45, [U "4"]);
    (U "Implementação Módulo A", U "Implementar primeiro módulo", 90, [U "5"]);
    (U "Implementação Módulo B", U "Implementar segundo módulo", 90, [U "5"]);
    (U "Integração de Módulos", U "Integrar todos os módulos", 60, [U "6"; U "7"]);
    (U "Testes Abrangentes", U "Executar bateria completa de testes", 75, [U "8"]);
    (U "Otimização", U "Otimizar performance e recursos", 45, [U "9"]);
    (U "Documentação Técnica", U "Criar documentação técnica", 30, [U "10"]);
    (U "Documentação do Usuário", U "Criar documentação do usuário", 30, [U "10"]) ].

Definition _sequential_planning (task : Task) : list SubTask :=
  enumerate_subtasks task 1 base_subtasks.

Definition _parallel_planning (task : Task) : list SubTask :=
  enumerate_subtasks task 1 parallel_subtasks.

Definition _hybrid_planning (task : Task) : list SubTask :=
  enumerate_subtasks task 1 hybrid_subtasks.

(** [self.planning_strategies[strategy](task)]. *)
Definition _decompose_task (task : Task) (strategy : Strategy)
    : list SubTask :=
  match strategy with
  | sequential => _sequential_planning task
  | parallel => _parallel_planning task
  | hybrid => _hybrid_planning task
  end.

Definition sum_estimated_time (subtasks : list SubTask) : Z :=
  foldr (fun st acc => st_estimated_time st + acc) 0 subtasks.

(** [PlannerAgent.process].  On a [Task] nothing in the [try] block raises, so
    the [except] branch is not taken. *)
Definition planner_process (self : Agent) (task : Task) (io : IO)
    : Plan * Agent * IO :=
  let '(start_time, io) := io_time io in
  let io := log_activity self (LogPlanningStarted (t_title task)) io in
  let complexity := _analyze_complexity task in
  let strategy := _choose_strategy complexity (t_priority task) in
  let subtasks := _decompose_task task strategy in
  let total_time := sum_estimated_time subtasks in
  let '(created_at, io) := io_time io in
  let '(plan, io) :=
    new_Plan [] (t_id task) subtasks total_time created_at (agent_id self) io in
  let '(end_time, io) := io_time io in
  let execution_time := (end_time - start_time)%Q in
  let self := agent_update_performance execution_time true self in
  let io :=
    log_activity self
      (LogPlanningDone (length subtasks) total_time (strategy_name strategy))
      io in
  (plan, self, io).

(** The strategy [replan] picks from the issues. *)
Definition replan_strategy (issues : list pystr) : Strategy :=
  if existsb (fun issue => contains (U "tempo") (str_lower issue)) issues
  then parallel
  else if existsb (fun issue => contains (U "qualidade") (str_lower issue))
                  issues
  then hybrid
  else sequential.

(** [int(estimated_time * 1.2)]: the product is a binary64 product. *)
Definition buffered_time (estimated_time : Z) : Exc + Z :=
  match int_of_float (PrimFloat.mul (float_of_Z estimated_time) float_1_2) with
  | Some z => inr z
  | None => inl OverflowError
  end.

(** [for subtask in subtasks: subtask.estimated_time = int(... * 1.2)]. *)
Fixpoint add_time_buffer (subtasks : list SubTask) : Exc + list SubTask :=
  match subtasks with
  | [] => inr []
  | st :: rest =>
      match buffered_time (st_estimated_time st) with
      | inl e => inl e
      | inr t =>
          match add_time_buffer rest with
          | inl e => inl e
          | inr rest' => inr (set_estimated_time t st :: rest')
          end
      end
  end.

(** [PlannerAgent.replan]. *)
Definition replan (self : Agent) (task : Task) (issues : list pystr)
    (io : IO) : (Exc + Plan) * IO :=
  let io := log_activity self (LogReplanning (t_title task) issues) io in
  let strategy := replan_strategy issues in
  let subtasks := _decompose_task task strategy in
  match add_time_buffer subtasks with
  | inl e => (inl e, io)
  | inr subtasks =>
      let total_time := sum_estimated_time subtasks in
      let '(created_at, io) := io_time io in
      let '(plan, io) :=
        new_Plan [] (t_id task) subtasks total_time created_at
                 (agent_id self) io in
      (inr plan, io)
  end.

(** ** agents/execution_agent.py *)

Definition any_in (keywords : list pystr) (s : pystr) : bool :=
  existsb (fun keyword => contains keyword s) keywords.

(** [ExecutionAgent._determine_strategy]. *)
Definition _determine_strategy (subtask : SubTask) : ExecStrategy :=
  let title_lower := str_lower (st_title subtask) in
  if any_in [U "análise"; U "analisar"; U "requisitos"] title_lower
  then SAnalise
  else if any_in [U "design"; U "arquitetura"; U "prototip"] title_lower
  then SDesign
  else if any_in [U "implementa"; U "desenvolv"; U "código"; U "módulo"]
                 title_lower
  then SImplementacao
  else if any_in [U "teste"; U "validação"; U "verificação"] title_lower
  then STeste
  else if any_in [U "documentação"; U "documentar"] title_lower
  then SDocumentacao
  else if any_in [U "setup"; U "configurar"; U "ambiente"] title_lower
  then SSetup
  else if any_in [U "integração"; U "integrar"] title_lower
  then SIntegracao
  else if any_in [U "otimização"; U "otimizar"; U "performance"] title_lower
  then SOtimizacao
  else SImplementacao.

(** [ExecutionResult(id="", ..., timestamp=datetime.now())] with its
    [__post_init__]. *)
Definition new_ExecutionResult (task_id : pystr) (subtask_id : option pystr)
    (success : bool) (output : PyVal) (error_message : option pystr)
    (execution_time : Z) (io : IO) : ExecutionResult * IO :=
  let '(timestamp, io) := io_time io in
  let '(u, io) := io_uuid4 io in
  (mkExecutionResult u task_id subtask_id success output error_message
                     execution_time timestamp, io).

(** [ExecutionAgent.execute_subtask]: the result, the subtask as the call
    leaves it (IN_PROGRESS), the agent with its metrics updated. *)
Definition execute_subtask (self : Agent) (subtask : SubTask) (io : IO)
    : ExecutionResult * SubTask * Agent * IO :=
  let '(start_time, io) := io_time io in
  let io := log_activity self (LogSubtaskStarted (st_title subtask)) io in
  let subtask := set_subtask_status IN_PROGRESS subtask in
  let strategy := _determine_strategy subtask in
  let '(outcome, w) := run_strategy strategy subtask (io_world io) in
  let io := mkIO w (io_out io) in
  let '(end_time, io) := io_time io in
  let execution_time := int_of_Q (end_time - start_time) in
  match outcome with
  | inr output =>
      let '(result, io) :=
        new_ExecutionResult (st_parent_task_id subtask) (Some (st_id subtask))
                            true output None execution_time io in
      let self := agent_update_performance (QofZ execution_time) true self in
      let io := log_activity self (LogSubtaskSucceeded (st_title subtask)) io in
      (result, subtask, self, io)
  | inl msg =>
      let '(result, io) :=
        new_ExecutionResult (st_parent_task_id subtask) (Some (st_id subtask))
                            false PNone (Some msg) execution_time io in
      let self := agent_update_performance (QofZ execution_time) false self in
      let io :=
        log_activity self (LogSubtaskError (st_title subtask) msg) io in
      (result, subtask, self, io)
  end.

(** [ExecutionAgent._execute_testing], one of the registered work functions:
    the payload it builds from its random draws,
    [random.randint(15, 50)], [random.randint(12, 48)],
    [random.uniform(75, 95)], [random.randint(0, 5)] and the three formatted
    performance figures. *)
Definition _execute_testing (tests_executed tests_passed : Z) (coverage : Q)
    (bugs_found : Z) (response_time_avg memory_usage cpu_usage : pystr)
    : PyVal :=
  PDict
    [ (U "type", PStr (U "testing"));
      (U "test_types",
       PList [PStr (U "Unit Tests"); PStr (U "Integration Tests");
              PStr (U "End-to-End Tests")]);
      (U "tests_executed", PInt tests_executed);
      (U "tests_passed", PInt tests_passed);
      (U "coverage_percentage", PFloat coverage);
      (U "bugs_found", PInt bugs_found);
      (U "performance_metrics",
       PDict [ (U "response_time_avg", PStr response_time_avg);
               (U "memory_usage", PStr memory_usage);
               (U "cpu_usage", PStr cpu_usage) ]) ].

(** The ranges of the four numeric draws. *)
Definition testing_draws_in_range (tests_executed tests_passed : Z)
    (coverage : Q) (bugs_found : Z) : bool :=
  (15 <=? tests_executed) && (tests_executed <=? 50)
  && (12 <=? tests_passed) && (tests_passed <=? 48)
  && Qle_bool 75 coverage && Qle_bool coverage 95
  && (0 <=? bugs_found) && (bugs_found <=? 5).

(** The test of [_get_ready_subtasks] on one subtask. *)
Definition is_ready (executed : gset pystr) (subtask : SubTask) : bool :=
  if bool_decide (st_id subtask ∈ executed)
     || bool_decide (st_status subtask = COMPLETED)
  then false
  else forallb (fun dep_id => bool_decide (dep_id ∈ executed))
               (st_dependencies subtask).

(** [ExecutionAgent._get_ready_subtasks].  The Python list holds references
    to the subtasks of the plan; here it holds their positions in the plan,
    [i] being the position of the head of [subtasks]. *)
Fixpoint ready_from (i : nat) (subtasks : list SubTask)
    (executed : gset pystr) : list nat :=
  match subtasks with
  | [] => []
  | subtask :: rest =>
      if is_ready executed subtask
      then i :: ready_from (S i) rest executed
      else ready_from (S i) rest executed
  end.

Definition _get_ready_subtasks (subtasks : list SubTask)
    (executed : gset pystr) : list nat :=
  ready_from 0 subtasks executed.

(** The state of [ExecutionAgent.process] inside its loop: the subtasks of the
    plan (their status is updated in place), [executed_subtasks], [results],
    the agent and the world. *)
Record ExecState := mkExecState {
  xs_subtasks : list SubTask;
  xs_executed : gset pystr;
  xs_results : list ExecutionResult;
  xs_self : Agent;
  xs_io : IO
}.

(** One iteration of [for subtask in ready_subtasks], on the subtask at
    position [i]. *)
Definition dispatch (i : nat) (s : ExecState) : ExecState :=
  match xs_subtasks s !! i with
  | None => s
  | Some subtask =>
      let '(result, subtask, self, io) :=
        execute_subtask (xs_self s) subtask (xs_io s) in
      let results := xs_results s ++ [result] in
      if er_success result then
        mkExecState
          (<[i := set_subtask_status COMPLETED subtask]> (xs_subtasks s))
          (xs_executed s ∪ {[st_id subtask]}) results self io
      else
        mkExecState
          (<[i := set_subtask_status FAILED subtask]> (xs_subtasks s))
          (xs_executed s) results self
          (log_activity self (LogSubtaskFailed (st_title subtask)) io)
  end.

Definition run_ready (ready : list nat) (s : ExecState) : ExecState :=
  foldl (fun s i => dispatch i s) s ready.

(** The [while] loop of [process]; [None] when [fuel] rounds were not enough
    to leave it. *)
Fixpoint exec_loop (fuel : nat) (s : ExecState) : option ExecState :=
  if bool_decide (size (xs_executed s) < length (xs_subtasks s))%nat then
    match _get_ready_subtasks (xs_subtasks s) (xs_executed s) with
    | [] =>
        Some (mkExecState (xs_subtasks s) (xs_executed s) (xs_results s)
                (xs_self s)
                (log_activity (xs_self s) LogCircularDependency (xs_io s)))
    | ready =>
        match fuel with
        | O => None
        | S fuel' => exec_loop fuel' (run_ready ready s)
        end
    end
  else Some s.

Definition count_success (b : bool) (results : list ExecutionResult) : nat :=
  length (filter (fun r => er_success r = b) results).

(** [ExecutionAgent.process]: the results, and the plan and the agent as the
    call leaves them. *)
Definition executor_process (fuel : nat) (self : Agent) (plan : Plan)
    (io : IO) : option (list ExecutionResult * Plan * Agent * IO) :=
  let io := log_activity self (LogExecutionStarted (p_id plan)) io in
  match exec_loop fuel (mkExecState (p_subtasks plan) ∅ [] self io) with
  | None => None
  | Some s =>
      let io :=
        log_activity (xs_self s)
          (LogExecutionDone (length (p_subtasks plan))
                            (count_success true (xs_results s))
                            (count_success false (xs_results s)))
          (xs_io s) in
      Some (xs_results s,
            mkPlan (p_id plan) (p_task_id plan) (xs_subtasks s)
                   (p_estimated_total_time plan) (p_created_at plan)
                   (p_agent_id plan),
            xs_self s, io)
  end.

(** ** Operations on payload values *)

(** [bool(x)]. *)
Definition truthy (v : PyVal) : bool :=
  match v with
  | PNone => false
  | PBool b => b
  | PInt z => negb (z =? 0)
  | PFloat q => negb (Qeq_bool q 0)
  | PStr s => negb (bool_decide (s = []))
  | PList l => match l with [] => false | _ => true end
  | PDict d => match d with [] => false | _ => true end
  end.

(** [len(x)]. *)
Definition py_len (v : PyVal) : Exc + nat :=
  match v with
  | PStr s => inr (length s)
  | PList l => inr (length l)
  | PDict d => inr (length d)
  | _ => inl TypeError
  end.

(** The value of a number ([bool] is a number); other values do not compare
    with numbers and do not take part in arithmetic. *)
Definition py_num (v : PyVal) : Exc + Q :=
  match v with
  | PBool b => inr (if b then 1 else 0)%Q
  | PInt z => inr (QofZ z)
  | PFloat q => inr q
  | _ => inl TypeError
  end.

Definition Qltb (a b : Q) : bool := negb (Qle_bool b a).

(** [d.get(key, default)] and [key in d]. *)
Fixpoint dict_get (d : list (pystr * PyVal)) (key : pystr) (default : PyVal)
    : PyVal :=
  match d with
  | [] => default
  | (k, v) :: rest => if bool_decide (k = key) then v
                      else dict_get rest key default
  end.

Definition dict_has (d : list (pystr * PyVal)) (key : pystr) : bool :=
  existsb (fun kv => bool_decide (kv.1 = key)) d.

(** [s in x] for a string [s]: an element of a list, a substring of a string,
    a key of a dict. *)
Definition str_in (s : pystr) (x : PyVal) : Exc + bool :=
  match x with
  | PList l =>
      inr (existsb (fun v => match v with
                             | PStr t => bool_decide (s = t)
                             | _ => false
                             end) l)
  | PStr t => inr (contains s t)
  | PDict d => inr (dict_has d s)
  | _ => inl TypeError
  end.

(** [max(0.0, x)] and [min(1.0, x)]. *)
Definition max0 (x : Q) : Q := if Qltb 0 x then x else 0%Q.
Definition min1 (x : Q) : Q := if Qltb x 1 then x else 1%Q.

(** ** agents/verification_agent.py *)

(** The dict a rule returns. *)
Record Verification := mkVerification {
  v_result_id : pystr;
  v_quality_score : Q;
  v_accuracy_score : Q;
  v_issues : list pystr;
  v_type : pystr
}.

(** [issues.append(msg)] under a condition. *)
Definition add_if (c : bool) (msg : pystr) (issues : list pystr)
    : list pystr :=
  if c then issues ++ [msg] else issues.

(** [max(0.0, 1.0 - (len(issues) * step))]. *)
Definition penalty_score (issues : list pystr) (step : Q) : Q :=
  max0 (1 - Qofnat (length issues) * step)%Q.

Definition _verify_analysis (result : ExecutionResult)
    (output : list (pystr * PyVal)) : Exc + Verification :=
  let required_fields :=
    [U "requirements_identified"; U "stakeholders"; U "constraints";
     U "risks"] in
  let issues :=
    foldl (fun issues field =>
             add_if (negb (dict_has output field)
                     || negb (truthy (dict_get output field PNone)))
                    (U "Campo obrigatório ausente ou vazio: " ++ field)
                    issues)
          [] required_fields in
  let requirements := dict_get output (U "requirements_identified") (PList []) in
  n ← py_len requirements;
  let issues :=
    add_if (n <? 3)%nat (U "Número insuficiente de requisitos identificados")
           issues in
  let quality_score := penalty_score issues (dec 2 10) in
  let accuracy_score := if (3 <=? n)%nat then dec 9 10 else dec 6 10 in
  mret (mkVerification (er_id result) quality_score accuracy_score issues
                       (U "analysis")).

Definition _verify_design (result : ExecutionResult)
    (output : list (pystr * PyVal)) : Exc + Verification :=
  let issues :=
    add_if (negb (dict_has output (U "architecture_pattern")))
           (U "Padrão de arquitetura não especificado") [] in
  let components := dict_get output (U "components") (PList []) in
  n ← py_len components;
  let issues :=
    add_if (n <? 2)%nat (U "Número insuficiente de componentes definidos")
           issues in
  let interfaces := dict_get output (U "interfaces") (PList []) in
  let issues :=
    add_if (negb (truthy interfaces)) (U "Interfaces não definidas") issues in
  let quality_score := penalty_score issues (dec 25 100) in
  let accuracy_score := if (3 <=? n)%nat then dec 85 100 else dec 7 10 in
  mret (mkVerification (er_id result) quality_score accuracy_score issues
                       (U "design")).

Definition _verify_implementation (result : ExecutionResult)
    (output : list (pystr * PyVal)) : Exc + Verification :=
  let files_created := dict_get output (U "files_created") (PList []) in
  n ← py_len files_created;
  let issues :=
    add_if (n <? 3)%nat (U "Número insuficiente de arquivos criados") [] in
  let code_quality_v := dict_get output (U "code_quality_score") (PFloat 0) in
  code_quality ← py_num code_quality_v;
  let issues :=
    add_if (Qltb code_quality (dec 7 10))
           (U "Qualidade do código baixa: "
              ++ format_num Fmt_2f code_quality_v)
           issues in
  lines_of_code ← py_num (dict_get output (U "lines_of_code") (PInt 0));
  let issues :=
    add_if (Qltb lines_of_code 100) (U "Implementação muito pequena")
           issues in
  let quality_score := min1 (code_quality + dec 1 10)%Q in
  let accuracy_score :=
    if Qle_bool 200 lines_of_code then dec 9 10 else dec 7 10 in
  mret (mkVerification (er_id result) quality_score accuracy_score issues
                       (U "implementation")).

Definition _verify_testing (result : ExecutionResult)
    (output : list (pystr * PyVal)) : Exc + Verification :=
  let tests_executed_v := dict_get output (U "tests_executed") (PInt 0) in
  let tests_passed_v := dict_get output (U "tests_passed") (PInt 0) in
  let coverage_v := dict_get output (U "coverage_percentage") (PInt 0) in
  coverage ← py_num coverage_v;
  let issues :=
    add_if (Qltb coverage 80)
           (U "Cobertura de testes baixa: " ++ format_num Fmt_1f coverage_v
              ++ U "%")
           [] in
  tests_executed ← py_num tests_executed_v;
  '(success_rate, issues) ←
    (if Qltb 0 tests_executed then
       tests_passed ← py_num tests_passed_v;
       let success_rate := (tests_passed / tests_executed)%Q in
       mret (success_rate,
             add_if (Qltb success_rate (dec 9 10))
                    (U "Taxa de sucesso dos testes baixa: "
                       ++ format_num Fmt_1pct (PFloat success_rate))
                    issues)
     else mret (0%Q, issues ++ [U "Nenhum teste executado"]));
  let bugs_found_v := dict_get output (U "bugs_found") (PInt 0) in
  bugs_found ← py_num bugs_found_v;
  let issues :=
    add_if (Qltb 3 bugs_found)
           (U "Muitos bugs encontrados: " ++ format_num Fmt_str bugs_found_v)
           issues in
  let quality_score := min1 (coverage / 100 + dec 1 10)%Q in
  let accuracy_score :=
    if Qltb 0 tests_executed then success_rate else 0%Q in
  mret (mkVerification (er_id result) quality_score accuracy_score issues
                       (U "testing")).

Definition _verify_documentation (result : ExecutionResult)
    (output : list (pystr * PyVal)) : Exc + Verification :=
  n ← py_len (dict_get output (U "documents_created") (PList []));
  let issues :=
    add_if (n <? 2)%nat (U "Número insuficiente de documentos criados") [] in
  pages ← py_num (dict_get output (U "pages_written") (PInt 0));
  let issues :=
    add_if (Qltb pages 10) (U "Documentação muito breve") issues in
  let sections := dict_get output (U "sections") (PList []) in
  let required_sections := [U "Introdução"; U "Instalação"; U "Uso"] in
  missing_sections ←
    foldr (fun (s : pystr) (acc : Exc + list pystr) =>
             present ← str_in s sections;
             rest ← acc;
             mret (if (present : bool) then rest else s :: rest))
          (inr []) required_sections;
  let issues :=
    add_if (negb (bool_decide (missing_sections = [])))
           (U "Seções obrigatórias ausentes: "
              ++ join (U ", ") missing_sections)
           issues in
  let quality_score := penalty_score issues (dec 2 10) in
  let accuracy_score := if Qle_bool 20 pages then dec 9 10 else dec 7 10 in
  mret (mkVerification (er_id result) quality_score accuracy_score issues
                       (U "documentation")).

Definition _verify_setup (result : ExecutionResult)
    (output : list (pystr * PyVal)) : Exc + Verification :=
  let issues :=
    add_if (negb (truthy (dict_get output (U "environment_configured")
                                   (PBool false))))
           (U "Ambiente não configurado adequadamente") [] in
  n ← py_len (dict_get output (U "tools_installed") (PList []));
  let issues :=
    add_if (n <? 3)%nat (U "Ferramentas insuficientes instaladas") issues in
  let config_files := dict_get output (U "config_files") (PList []) in
  let issues :=
    add_if (negb (truthy config_files))
           (U "Arquivos de configuração não criados") issues in
  let quality_score := penalty_score issues (dec 3 10) in
  let accuracy_score := if (5 <=? n)%nat then dec 95 100 else dec 8 10 in
  mret (mkVerification (er_id result) quality_score accuracy_score issues
                       (U "setup")).

Definition _verify_integration (result : ExecutionResult)
    (output : list (pystr * PyVal)) : Exc + Verification :=
  n ← py_len (dict_get output (U "modules_integrated") (PList []));
  let issues :=
    add_if (n <? 2)%nat (U "Número insuficiente de módulos integrados") [] in
  let issues :=
    add_if (negb (truthy (dict_get output (U "data_flow_verified")
                                   (PBool false))))
           (U "Fluxo de dados não verificado") issues in
  integration_tests ←
    py_num (dict_get output (U "integration_tests_passed") (PInt 0));
  let issues :=
    add_if (Qltb integration_tests 5) (U "Testes de integração insuficientes")
           issues in
  let quality_score := penalty_score issues (dec 25 100) in
  let accuracy_score :=
    if Qle_bool 10 integration_tests then dec 9 10 else dec 7 10 in
  mret (mkVerification (er_id result) quality_score accuracy_score issues
                       (U "integration")).

Definition _verify_optimization (result : ExecutionResult)
    (output : list (pystr * PyVal)) : Exc + Verification :=
  n ← py_len (dict_get output (U "optimizations_applied") (PList []));
  let issues :=
    add_if (n <? 2)%nat (U "Número insuficiente de otimizações aplicadas")
           [] in
  let improvements :=
    dict_get output (U "performance_improvements") (PDict []) in
  let issues :=
    add_if (negb (truthy improvements))
           (U "Melhorias de performance não documentadas") issues in
  response_time_improvement ←
    match improvements with
    | PDict d => inr (dict_get d (U "response_time") (PStr (U "0% faster")))
    | _ => inl AttributeError
    end;
  faster ← str_in (U "faster") response_time_improvement;
  let issues :=
    add_if (negb faster) (U "Tempo de resposta não melhorou") issues in
  let quality_score := penalty_score issues (dec 2 10) in
  let accuracy_score := if (3 <=? n)%nat then dec 85 100 else dec 7 10 in
  mret (mkVerification (er_id result) quality_score accuracy_score issues
                       (U "optimization")).

Definition _verify_generic (result : ExecutionResult) : Verification :=
  let issues :=
    add_if (negb (truthy (er_output result))) (U "Resultado vazio") [] in
  let issues :=
    add_if (300 <? er_execution_time result)
           (U "Tempo de execução muito longo") issues in
  let quality_score :=
    if bool_decide (issues = []) then dec 7 10 else dec 4 10 in
  let accuracy_score := dec 6 10 in
  mkVerification (er_id result) quality_score accuracy_score issues
                 (U "generic").

(** [self.verification_criteria]: the rule stored under a key, if any. *)
Definition verification_criteria (output_type : pystr)
    : option (ExecutionResult -> list (pystr * PyVal) -> Exc + Verification) :=
  if bool_decide (output_type = U "analysis") then Some _verify_analysis
  else if bool_decide (output_type = U "design") then Some _verify_design
  else if bool_decide (output_type = U "implementation")
  then Some _verify_implementation
  else if bool_decide (output_type = U "testing") then Some _verify_testing
  else if bool_decide (output_type = U "documentation")
  then Some _verify_documentation
  else if bool_decide (output_type = U "setup") then Some _verify_setup
  else if bool_decide (output_type = U "integration")
  then Some _verify_integration
  else if bool_decide (output_type = U "optimization")
  then Some _verify_optimization
  else None.

(** [str(x)] of an optional message, as an f-string renders it. *)
Definition str_of_message (m : option pystr) : pystr :=
  match m with Some s => s | None => U "None" end.

(** [VerificationAgent._verify_individual_result].  A non-empty output that
    is not a dict has no [get]; a list or a dict as the value of "type" cannot
    be looked up in the table of rules. *)
Definition _verify_individual_result (result : ExecutionResult)
    : Exc + Verification :=
  if negb (er_success result) then
    inr (mkVerification (er_id result) 0%Q 0%Q
           [U "Execução falhou: " ++ str_of_message (er_error_message result)]
           (U "failed_execution"))
  else if negb (truthy (er_output result)) then
    inr (_verify_generic result)
  else
    match er_output result with
    | PDict output =>
        match dict_get output (U "type") (PStr (U "unknown")) with
        | PStr output_type =>
            match verification_criteria output_type with
            | Some rule => rule result output
            | None => inr (_verify_generic result)
            end
        | PList _ | PDict _ => inl TypeError
        | _ => inr (_verify_generic result)
        end
    | _ => inl AttributeError
    end.

Definition Qsum (xs : list Q) : Q := foldl Qplus 0%Q xs.

(** [VerificationAgent._calculate_overall_quality]. *)
Definition _calculate_overall_quality (verifications : list Verification)
    : Q :=
  match verifications with
  | [] => 0%Q
  | _ =>
      let total_quality := Qsum (map v_quality_score verifications) in
      (total_quality / Qofnat (length verifications))%Q
  end.

(** [VerificationAgent._calculate_overall_accuracy]. *)
Definition _calculate_overall_accuracy (verifications : list Verification)
    : Q :=
  match verifications with
  | [] => 0%Q
  | _ =>
      let total_accuracy := Qsum (map v_accuracy_score verifications) in
      (total_accuracy / Qofnat (length verifications))%Q
  end.

(** [VerificationAgent._identify_issues]. *)
Definition _identify_issues (verifications : list Verification)
    (execution_results : list ExecutionResult) : list pystr :=
  let all_issues := concat (map v_issues verifications) in
  let failed_executions :=
    filter (fun r => er_success r = false) execution_results in
  let all_issues :=
    add_if (Qltb (Qofnat (length execution_results) * dec 2 10)
                 (Qofnat (length failed_executions)))
           (U "Alta taxa de falhas na execução") all_issues in
  let total_time :=
    foldl Z.add 0 (map er_execution_time execution_results) in
  let all_issues :=
    add_if (1800 <? total_time) (U "Tempo total de execução muito longo")
           all_issues in
  list_of_set all_issues.

Definition any_issue (keyword : pystr) (issues : list pystr) : bool :=
  existsb (fun issue => contains keyword (str_lower issue)) issues.

(** [VerificationAgent._generate_recommendations]. *)
Definition _generate_recommendations (issues : list pystr)
    (verifications : list Verification) : list pystr :=
  let recommendations := [] in
  let recommendations :=
    if any_issue (U "qualidade do código") issues
    then recommendations
           ++ [U "Implementar revisão de código mais rigorosa";
               U "Usar ferramentas de análise estática de código"]
    else recommendations in
  let recommendations :=
    if any_issue (U "cobertura") issues
    then recommendations
           ++ [U "Aumentar cobertura de testes para pelo menos 80%";
               U "Implementar testes de integração adicionais"]
    else recommendations in
  let recommendations :=
    if any_issue (U "documentação") issues
    then recommendations
           ++ [U "Expandir documentação com mais detalhes";
               U "Adicionar exemplos práticos na documentação"]
    else recommendations in
  let recommendations :=
    if any_issue (U "tempo") issues
    then recommendations
           ++ [U "Otimizar processos para reduzir tempo de execução";
               U "Considerar paralelização de tarefas"]
    else recommendations in
  let low_quality_verifications :=
    filter (fun v => Qltb (v_quality_score v) (dec 7 10) = true)
           verifications in
  let recommendations :=
    if Qltb (Qofnat (length verifications) * dec 3 10)
            (Qofnat (length low_quality_verifications))
    then recommendations
           ++ [U "Revisar processo de desenvolvimento para melhorar qualidade";
               U "Implementar checkpoints de qualidade mais frequentes"]
    else recommendations in
  match recommendations with
  | [] => [U "Manter padrão atual de qualidade"]
  | _ => recommendations
  end.

(** [self.quality_thresholds]. *)
Definition minimum_quality_score : Q := dec 7 10.
Definition minimum_accuracy_score : Q := dec 8 10.

(** [VerificationAgent._determine_pass_status]. *)
Definition _determine_pass_status (quality_score accuracy_score : Q)
    (issues : list pystr) : bool :=
  let meets_quality := Qle_bool minimum_quality_score quality_score in
  let meets_accuracy := Qle_bool minimum_accuracy_score accuracy_score in
  let critical_issues :=
    filter (fun issue =>
              any_in [U "falhou"; U "crítico"; U "erro fatal"]
                     (str_lower issue) = true)
           issues in
  let no_critical_issues := bool_decide (length critical_issues = 0%nat) in
  meets_quality && meets_accuracy && no_critical_issues.

(** [for result in execution_results: ... append(...)]: the first rule that
    raises ends the loop. *)
Fixpoint verify_all (execution_results : list ExecutionResult)
    : Exc + list Verification :=
  match execution_results with
  | [] => inr []
  | result :: rest =>
      verification ← _verify_individual_result result;
      verifications ← verify_all rest;
      mret (verification :: verifications)
  end.

(** [VerificationAgent.process]: an exception of a rule is logged, counted
    as a failure in the metrics of the agent, and raised again. *)
Definition verifier_process (self : Agent)
    (execution_results : list ExecutionResult) (task : Task) (io : IO)
    : (Exc + VerificationResult) * Agent * IO :=
  let '(start_time, io) := io_time io in
  let io := log_activity self (LogVerificationStarted (t_title task)) io in
  match verify_all execution_results with
  | inr individual_verifications =>
      let overall_quality :=
        _calculate_overall_quality individual_verifications in
      let overall_accuracy :=
        _calculate_overall_accuracy individual_verifications in
      let issues :=
        _identify_issues individual_verifications execution_results in
      let recommendations :=
        _generate_recommendations issues individual_verifications in
      let passed :=
        _determine_pass_status overall_quality overall_accuracy issues in
      let '(timestamp, io) := io_time io in
      let '(u, io) := io_uuid4 io in
      let verification_result :=
        mkVerificationResult u (t_id task) passed overall_quality
                             overall_accuracy issues recommendations
                             timestamp in
      let '(end_time, io) := io_time io in
      let self :=
        agent_update_performance (end_time - start_time)%Q true self in
      let io :=
        log_activity self
          (LogVerificationDone passed overall_quality overall_accuracy
                               (length issues)) io in
      (inr verification_result, self, io)
  | inl e =>
      let '(end_time, io) := io_time io in
      let self :=
        agent_update_performance (end_time - start_time)%Q false self in
      let io := log_activity self (LogVerificationError e) io in
      (inl e, self, io)
  end.

(** ** multi_agent_system.py *)

Record SystemMetrics := mkSystemMetrics {
  tasks_processed : nat;
  sys_success_rate : Q;
  average_completion_time : Q;
  replanning_rate : Q
}.

Definition initial_system_metrics : SystemMetrics :=
  mkSystemMetrics 0 0%Q 0%Q 0%Q.

Record MultiAgentSystem := mkSystem {
  planner : Agent;
  executor : Agent;
  verifier : Agent;
  system_metrics : SystemMetrics
}.

(** [MultiAgentSystem._update_system_metrics]. *)
Definition _update_system_metrics (completion_time : Q) (success : bool)
    (replanning_attempts : Z) (m : SystemMetrics) : SystemMetrics :=
  let total_tasks := S (tasks_processed m) in
  let current_successes :=
    (sys_success_rate m * Qofnat (total_tasks - 1))%Q in
  let current_successes :=
    if success then (current_successes + 1)%Q else current_successes in
  let current_avg := average_completion_time m in
  let new_replanning_rate :=
    if 0 <? replanning_attempts then
      let current_replanning :=
        (replanning_rate m * Qofnat (total_tasks - 1))%Q in
      let current_replanning := (current_replanning + 1)%Q in
      (current_replanning / Qofnat total_tasks)%Q
    else replanning_rate m in
  mkSystemMetrics total_tasks
    (current_successes / Qofnat total_tasks)%Q
    ((current_avg * Qofnat (total_tasks - 1) + completion_time)
       / Qofnat total_tasks)%Q
    new_replanning_rate.

Definition update_system (completion_time : Q) (success : bool)
    (replanning_attempts : Z) (sys : MultiAgentSystem) : MultiAgentSystem :=
  mkSystem (planner sys) (executor sys) (verifier sys)
           (_update_system_metrics completion_time success
                                   replanning_attempts (system_metrics sys)).

(** The dicts [process_task] returns. *)
Record ExecutionSummary := mkExecutionSummary {
  total_subtasks : nat;
  successful_subtasks : nat;
  failed_subtasks : nat
}.

Definition summarize (execution_results : list ExecutionResult)
    : ExecutionSummary :=
  mkExecutionSummary (length execution_results)
                     (count_success true execution_results)
                     (count_success false execution_results).

Record SuccessResult := mkSuccessResult {
  sr_task_id : pystr;
  sr_completion_time : Q;
  sr_replanning_attempts : Z;
  sr_plan_id : pystr;
  sr_plan_subtasks_count : nat;
  sr_plan_estimated_time : Z;
  sr_plan_actual_time : Z;
  sr_execution : ExecutionSummary;
  sr_execution_results : list ExecutionResult;
  sr_verification_passed : bool;
  sr_quality_score : Q;
  sr_accuracy_score : Q;
  sr_issues_count : nat;
  sr_recommendations_count : nat;
  sr_agents_performance : Metrics * Metrics * Metrics
}.

Record FailureResult := mkFailureResult {
  fr_task_id : pystr;
  fr_completion_time : Q;
  fr_replanning_attempts : Z;
  fr_failure_reason : pystr;
  fr_quality_score : Q;
  fr_accuracy_score : Q;
  fr_issues_found : list pystr;
  fr_recommendations : list pystr;
  fr_execution_summary : ExecutionSummary
}.

Record ErrorResult := mkErrorResult {
  xr_task_id : pystr;
  xr_error : Exc;
  xr_completion_time : Q;
  xr_replanning_attempts : Z
}.

Inductive TaskResult :=
  | ResultCompleted (r : SuccessResult)
  | ResultFailed (r : FailureResult)
  | ResultError (r : ErrorResult).

(** The value stored under "status". *)
Definition result_status (r : TaskResult) : pystr :=
  match r with
  | ResultCompleted _ => U "completed"
  | ResultFailed _ => U "failed"
  | ResultError _ => U "failed"
  end.

(** [MultiAgentSystem._create_success_result]. *)
Definition _create_success_result (sys : MultiAgentSystem) (task : Task)
    (plan : Plan) (execution_results : list ExecutionResult)
    (verification_result : VerificationResult) (completion_time : Q)
    (replanning_attempts : Z) : SuccessResult :=
  mkSuccessResult (t_id task) completion_time replanning_attempts
    (p_id plan) (length (p_subtasks plan)) (p_estimated_total_time plan)
    (foldl Z.add 0 (map er_execution_time execution_results))
    (summarize execution_results) execution_results
    (vr_passed verification_result) (vr_quality_score verification_result)
    (vr_accuracy_score verification_result)
    (length (vr_issues_found verification_result))
    (length (vr_recommendations verification_result))
    (performance_metrics (planner sys), performance_metrics (executor sys),
     performance_metrics (verifier sys)).

(** [MultiAgentSystem._create_failure_result]. *)
Definition _create_failure_result (task : Task) (plan : Plan)
    (execution_results : list ExecutionResult)
    (verification_result : VerificationResult) (completion_time : Q)
    (replanning_attempts : Z) : FailureResult :=
  mkFailureResult (t_id task) completion_time replanning_attempts
    (U "verification_failed_after_max_replanning")
    (vr_quality_score verification_result)
    (vr_accuracy_score verification_result)
    (vr_issues_found verification_result)
    (vr_recommendations verification_result)
    (summarize execution_results).

(** The [except Exception] branch of [process_task]. *)
Definition task_error (e : Exc) (sys : MultiAgentSystem) (task : Task)
    (start_time : Q) (replanning_attempts : Z) (io : IO)
    : option TaskResult * MultiAgentSystem * Task * IO :=
  let task := set_task_status FAILED task in
  let '(now, io) := io_time io in
  let completion_time := (now - start_time)%Q in
  let error_result :=
    mkErrorResult (t_id task) e completion_time replanning_attempts in
  let sys := update_system completion_time false replanning_attempts sys in
  (Some (ResultError error_result), sys, task, io).

(** The [while replanning_attempts <= max_replanning_attempts] loop of
    [process_task].  [rounds] bounds the number of iterations (the counter
    grows by one at each [continue]); [fuel] is handed to the executor, and
    the outer [None] says that the executor did not come back.  The inner
    option is the value returned: [None] is Python's [None], what a function
    returns when it reaches its end. *)
Fixpoint task_loop (rounds fuel : nat) (sys : MultiAgentSystem) (task : Task)
    (max_replanning_attempts replanning_attempts : Z)
    (verification_result : option VerificationResult) (start_time : Q)
    (io : IO) : option (option TaskResult * MultiAgentSystem * Task * IO) :=
  if negb (replanning_attempts <=? max_replanning_attempts) then
    Some (None, sys, task, io)
  else
    match rounds with
    | O => None
    | S rounds' =>
        (* Fase 1: planejamento *)
        let '(planned, sys, io) :=
          if replanning_attempts =? 0 then
            let '(plan, self, io) := planner_process (planner sys) task io in
            (inr plan,
             mkSystem self (executor sys) (verifier sys) (system_metrics sys),
             io)
          else
            let issues :=
              match verification_result with
              | Some vr => vr_issues_found vr
              | None => []
              end in
            let '(planned, io) := replan (planner sys) task issues io in
            (planned, sys, io) in
        match planned with
        | inl e => Some (task_error e sys task start_time replanning_attempts io)
        | inr plan =>
            (* Fase 2: execução *)
            match executor_process fuel (executor sys) plan io with
            | None => None
            | Some (execution_results, plan, self, io) =>
                let sys :=
                  mkSystem (planner sys) self (verifier sys)
                           (system_metrics sys) in
                (* Fase 3: verificação *)
                let '(verified, self, io) :=
                  verifier_process (verifier sys) execution_results task io in
                let sys :=
                  mkSystem (planner sys) (executor sys) self
                           (system_metrics sys) in
                match verified with
                | inl e =>
                    Some (task_error e sys task start_time
                                     replanning_attempts io)
                | inr vr =>
                    if vr_passed vr then
                      let task := set_task_status COMPLETED task in
                      let '(now, io) := io_time io in
                      let completion_time := (now - start_time)%Q in
                      let result :=
                        _create_success_result sys task plan execution_results
                          vr completion_time replanning_attempts in
                      let sys :=
                        update_system completion_time true
                                      replanning_attempts sys in
                      Some (Some (ResultCompleted result), sys, task, io)
                    else if replanning_attempts <? max_replanning_attempts
                    then
                      let replanning_attempts := replanning_attempts + 1 in
                      let task := set_task_status NEEDS_REPLANNING task in
                      task_loop rounds' fuel sys task max_replanning_attempts
                                replanning_attempts (Some vr) start_time io
                    else
                      let task := set_task_status FAILED task in
                      let '(now, io) := io_time io in
                      let completion_time := (now - start_time)%Q in
                      let result :=
                        _create_failure_result task plan execution_results vr
                          completion_time replanning_attempts in
                      let sys :=
                        update_system completion_time false
                                      replanning_attempts sys in
                      Some (Some (ResultFailed result), sys, task, io)
                end
            end
        end
    end.

(** [MultiAgentSystem.process_task]; what the function prints itself is not
    part of the state, the lines logged by the agents are. *)
Definition process_task (fuel : nat) (sys : MultiAgentSystem) (task : Task)
    (max_replanning_attempts : Z) (io : IO)
    : option (option TaskResult * MultiAgentSystem * Task * IO) :=
  let '(start_time, io) := io_time io in
  let task := set_task_status IN_PROGRESS task in
  let replanning_attempts := 0 in
  task_loop (S (Z.to_nat max_replanning_attempts)) fuel sys task
            max_replanning_attempts replanning_attempts None start_time io.

End WithRuntime.

(** ** Reference definitions

    What the specification says in its own words, to be compared with the
    functions above. *)

Section Reference.
Context {RT : Runtime}.

Definition indicator (b : bool) : Z := if b then 1 else 0.

(** The five indicators of the complexity rule, summed. *)
Definition complexity_score (task : Task) : Z :=
  indicator (5 <? length (t_requirements task))%nat
  + indicator (100 <? length (split (t_description task)))%nat
  + indicator (match t_priority task with
               | HIGH | CRITICAL => true
               | _ => false
               end)
  + indicator (contains (U "integração") (str_lower (t_description task)))
  + indicator (contains (U "api") (str_lower (t_description task))).

Definition complexity_class (score : Z) : Complexity :=
  if 3 <=? score then high else if 1 <=? score then medium else low.

(** [round(x)]: the nearest integer, a tie going to the even one. *)
Definition round_half_even (x : Q) : Z :=
  let f := Qfloor x in
  let r := (x - QofZ f)%Q in
  if Qltb r (dec 1 2) then f
  else if Qltb (dec 1 2) r then f + 1
  else if Z.even f then f else f + 1.

(** The incremental mean of section 4.4 for a boolean observation, [n] being
    the number of earlier observations. *)
Definition incremental_rate (rate : Q) (n : nat) (observation : bool) : Q :=
  ((rate * Qofnat n + (if observation then 1 else 0)) / Qofnat (S n))%Q.

Definition incremental_mean (avg : Q) (n : nat) (d : Q) : Q :=
  ((avg * Qofnat n + d) / Qofnat (S n))%Q.

End Reference.

(** ** A concrete runtime

    A world that is a counter: the clock shows it and uuids are numbered by
    it; every reading advances it.  Case mapping covers ASCII and Latin-1,
    which is all the literals of the sources need. *)

Definition latin1_lower (s : pystr) : pystr :=
  map (fun c =>
         if ((65 <=? c) && (c <=? 90)
             || (192 <=? c) && (c <=? 222) && negb (c =? 215))%N
         then (c + 32)%N else c) s.

Definition counter_format (f : NumFormat) (v : PyVal) : pystr :=
  match v with
  | PInt z => str_of_Z z
  | PFloat q => str_of_Z (int_of_Q q)
  | _ => U "?"
  end.

Definition counter_runtime
    (work : ExecStrategy -> SubTask -> nat -> (pystr + PyVal) * nat)
    : Runtime :=
  {| World := nat;
     time_time := fun w => (Qofnat w, S w);
     uuid4 := fun w => (U "uuid-" ++ str_of_Z (Z.of_nat w), S w);
     str_lower := latin1_lower;
     format_num := counter_format;
     list_of_set := remove_dups;
     list_of_set_perm := fun xs => reflexivity (remove_dups xs);
     run_strategy := work |}.

(** A work function that always succeeds, with an empty payload. *)
Definition work_ok (_ : ExecStrategy) (_ : SubTask) (w : nat)
    : (pystr + PyVal) * nat :=
  (inr (PDict []), S w).

(** A work function that raises as long as the counter is below [n]. *)
Definition work_failing_until (n : nat) (_ : ExecStrategy) (_ : SubTask)
    (w : nat) : (pystr + PyVal) * nat :=
  if (w <? n)%nat then (inl (U "indisponível"), S w)
  else (inr (PDict []), S w).

Definition demo_agent (name : string) : Agent :=
  mkAgent (U "agent-" ++ U name) (U name) initial_metrics.

Definition demo_system : MultiAgentSystem :=
  mkSystem (demo_agent "Planner Agent") (demo_agent "Execution Agent")
           (demo_agent "Verification Agent") initial_system_metrics.

Definition demo_task : Task :=
  mkTask (U "task-1") (U "Relatório") (U "Gerar o relatório mensal") LOW
         PENDING 0 0 [U "PDF"; U "Gráficos"] (U "Um relatório").

Definition demo_subtask (id : string) (deps : list string) : SubTask :=
  mkSubTask (U id) (U "task-1") (U "Implementação") (U "") 1 PENDING 10
            (map U deps).

Definition demo_plan (subtasks : list SubTask) : Plan :=
  mkPlan (U "plan-1") (U "task-1") subtasks
         (sum_estimated_time subtasks) 0 (U "agent-Planner Agent").

(** ** Predicates on the output *)

Definition is_replanning (a : Activity) : bool :=
  match a with LogReplanning _ _ => true | _ => false end.

(** From [io] to [io'] lines were only added, none of them the line that
    [replan] logs when it is called. *)
Definition logs_no_replanning {RT : Runtime} (io io' : IO) : Prop :=
  exists added,
    io_out io' = io_out io ++ added
    /\ Forall (fun line => is_replanning (log_activity_of line) = false) added.

(** The circular-dependency diagnostic is among the lines printed. *)
Definition logged_circular {RT : Runtime} (io : IO) : Prop :=
  Exists (fun line => log_activity_of line = LogCircularDependency)
         (io_out io).

(** ** The scheduling discipline of the executor *)

(** Every registered work function returns a payload, whatever the subtask and
    the world. *)
Definition always_succeeds {RT : Runtime} : Prop :=
  forall strategy subtask w,
    exists output w', run_strategy strategy subtask w = (inr output, w').

(** The ids of the subtasks that have a successful result, in the order of
    the results. *)
Definition succeeded (results : list ExecutionResult) : list pystr :=
  omap (fun r => if er_success r then er_subtask_id r else None) results.

(** Two subtasks that differ at most in their status. *)
Definition same_subtask (a b : SubTask) : Prop :=
  a = set_subtask_status (st_status a) b.

(** [scheduled subtasks results executed]: the results can be obtained by
    dispatching, one after the other, subtasks of the plan whose id is not in
    the executed set and whose dependencies all are; a success adds the id to
    the set, a failure leaves the set as it is. *)
Inductive scheduled {RT : Runtime} (subtasks : list SubTask)
    : list ExecutionResult -> gset pystr -> Prop :=
  | scheduled_nil : scheduled subtasks [] ∅
  | scheduled_step results executed subtask r :
      scheduled subtasks results executed ->
      subtask ∈ subtasks ->
      st_id subtask ∉ executed ->
      (forall dep_id, dep_id ∈ st_dependencies subtask -> dep_id ∈ executed) ->
      er_subtask_id r = Some (st_id subtask) ->
      (always_succeeds -> er_success r = true) ->
      scheduled subtasks (results ++ [r])
                (if er_success r then executed ∪ {[st_id subtask]}
                 else executed).

(** [in_rounds subtasks results round_start executed completed]: the results
    can be obtained round by round.  In a round, the subtasks dispatched are
    subtasks of the plan (the one at position [i]) that have not succeeded yet,
    whose id was not in the executed set when the round started and whose
    dependencies all were; a success adds the id to the executed set and the
    position to [completed], a failure changes neither; a new round starts
    from the executed set of the moment. *)
Inductive in_rounds {RT : Runtime} (subtasks : list SubTask)
    : list ExecutionResult -> gset pystr -> gset pystr -> gset nat -> Prop :=
  | in_rounds_nil : in_rounds subtasks [] ∅ ∅ ∅
  | in_rounds_next results round_start executed completed :
      in_rounds subtasks results round_start executed completed ->
      in_rounds subtasks results executed executed completed
  | in_rounds_step results round_start executed completed i subtask r :
      in_rounds subtasks results round_start executed completed ->
      subtasks !! i = Some subtask ->
      i ∉ completed ->
      st_id subtask ∉ round_start ->
      (forall dep_id,
         dep_id ∈ st_dependencies subtask -> dep_id ∈ round_start) ->
      er_subtask_id r = Some (st_id subtask) ->
      (always_succeeds -> er_success r = true) ->
      in_rounds subtasks (results ++ [r]) round_start
                (if er_success r then executed ∪ {[st_id subtask]}
                 else executed)
                (if er_success r then completed ∪ {[i]} else completed).

(** The link between the state of the loop and the rounds: the subtasks are
    those of the plan up to their status, and a position recorded as completed
    holds a COMPLETED subtask. *)
Definition tracks {RT : Runtime} (subtasks0 : list SubTask) (s : ExecState)
    (round_start : gset pystr) (completed : gset nat) : Prop :=
  Forall2 same_subtask (xs_subtasks s) subtasks0
  /\ in_rounds subtasks0 (xs_results s) round_start (xs_executed s) completed
  /\ forall i, i ∈ completed ->
       exists st, xs_subtasks s !! i = Some st /\ st_status st = COMPLETED.

(** A result is dispatched in order when its subtask had no successful result
    before it and every dependency of its subtask had one. *)
Definition in_order (subtasks : list SubTask) (before : list ExecutionResult)
    (r : ExecutionResult) : Prop :=
  exists subtask,
    subtask ∈ subtasks
    /\ er_subtask_id r = Some (st_id subtask)
    /\ (st_id subtask ∉ succeeded before)
    /\ forall dep_id,
         dep_id ∈ st_dependencies subtask -> dep_id ∈ succeeded before.

Definition well_scheduled (subtasks : list SubTask)
    (results : list ExecutionResult) : Prop :=
  forall before r after,
    results = before ++ r :: after -> in_order subtasks before r.

(** [a] depends on [b]: a subtask of id [a] lists [b] in its dependencies. *)
Definition depends_on (subtasks : list SubTask) (a b : pystr) : bool :=
  existsb (fun st => bool_decide (st_id st = a)
                     && bool_decide (b ∈ st_dependencies st)) subtasks.

(** [a] depends on the head of [rest], each id of [rest] on the next one, and
    the last one on [back]. *)
Fixpoint dependency_chain (subtasks : list SubTask) (a : pystr)
    (rest : list pystr) (back : pystr) : bool :=
  match rest with
  | [] => depends_on subtasks a back
  | b :: rest' =>
      depends_on subtasks a b && dependency_chain subtasks b rest' back
  end.

(** A cycle of the dependency relation: a non-empty list of ids, each
    depending on the next one and the last one on the first. *)
Definition is_cycle (subtasks : list SubTask) (cycle : list pystr) : bool :=
  match cycle with
  | [] => false
  | a :: rest => dependency_chain subtasks a rest a
  end.

Definition has_cycle (subtasks : list SubTask) : Prop :=
  exists cycle, is_cycle subtasks cycle = true.

(** A subtask that lies on the cycle: its id is one of the cycle and it
    depends on an id of the cycle. *)
Definition on_cycle (cycle : list pystr) (subtask : SubTask) : Prop :=
  st_id subtask ∈ cycle
  /\ Exists (fun dep_id => dep_id ∈ st_dependencies subtask) cycle.

#[global] Instance on_cycle_dec (cycle : list pystr) (subtask : SubTask) :
  Decision (on_cycle cycle subtask).
Proof. unfold on_cycle. apply _. Defined.

(** The results whose subtask id is [id]. *)
Definition results_of (id : pystr) (results : list ExecutionResult)
    : list ExecutionResult :=
  filter (fun r => er_subtask_id r = Some id) results.

(** ** A run of the test-execution work function

    The result of a testing subtask for which [_execute_testing] drew 15
    tests executed, 48 tests passed, 90 percent coverage and no bug. *)
Definition lucky_testing_result : ExecutionResult :=
  mkExecutionResult (U "result-4") (U "task-1") (Some (U "4")) true
    (_execute_testing 15 48 90 0 (U "0.50s") (U "100MB") (U "30%"))
    None 3 0.

(** ** Two statements of the specification about the executor *)

(** "One result per attempted SubTask": within one call no subtask has two
    results, and no dependent of a subtask with a failed result has any. *)
Definition dispatches_each_subtask_once : Prop :=
  forall (RT : Runtime) (fuel : nat) (self self' : Agent) (plan plan' : Plan)
         (io io' : IO) (results : list ExecutionResult),
    executor_process fuel self plan io = Some (results, plan', self', io') ->
    (forall st, st ∈ p_subtasks plan ->
       (length (results_of (st_id st) results) <= 1)%nat)
    /\ (forall st dep_id r,
          st ∈ p_subtasks plan -> dep_id ∈ st_dependencies st ->
          r ∈ results -> er_subtask_id r = Some dep_id ->
          er_success r = false ->
          results_of (st_id st) results = []).

(** "A Plan containing a cycle halts with a non-empty but strictly partial
    result list", the diagnostic being logged. *)
Definition cycle_gives_nonempty_partial_results : Prop :=
  forall (RT : Runtime) (self : Agent) (plan : Plan) (io : IO),
    has_cycle (p_subtasks plan) ->
    exists fuel results plan' self' io',
      executor_process fuel self plan io = Some (results, plan', self', io')
      /\ logged_circular io'
      /\ results <> []
      /\ (length results < length (p_subtasks plan))%nat.

(** ** Example plans *)

(** Subtask 2 depends on subtask 1. *)
Definition chain_plan : Plan :=
  demo_plan [demo_subtask "1" []; demo_subtask "2" ["1"]].

(** Subtasks 1 and 2 depend on each other. *)
Definition cyclic_plan : Plan :=
  demo_plan [demo_subtask "1" ["2"]; demo_subtask "2" ["1"]].

(** Two free subtasks with the same id. *)
Definition duplicate_plan : Plan :=
  demo_plan [demo_subtask "1" []; demo_subtask "1" []].

(** Subtask 0 is free; subtasks 1 and 2 depend on each other. *)
Definition partly_cyclic_plan : Plan :=
  demo_plan [demo_subtask "0" []; demo_subtask "1" ["2"];
             demo_subtask "2" ["1"]].

(** The runtime in which every work function succeeds, and the one in which
    the work functions fail until the counter reaches 10. *)
Definition reliable_runtime : Runtime := counter_runtime work_ok.
Definition flaky_runtime : Runtime := counter_runtime (work_failing_until 10).

(** The runtime in which they fail until the counter reaches 20. *)
Definition stubborn_runtime : Runtime :=
  counter_runtime (work_failing_until 20).

(** The world at counter 0, with nothing printed yet. *)
Definition reliable_io : IO (RT := reliable_runtime) :=
  mkIO (RT := reliable_runtime) 0%nat [].
Definition flaky_io : IO (RT := flaky_runtime) :=
  mkIO (RT := flaky_runtime) 0%nat [].
Definition stubborn_io : IO (RT := stubborn_runtime) :=
  mkIO (RT := stubborn_runtime) 0%nat [].

(** * Properties *)

Section Properties.
Context {RT : Runtime}.

(** ** The metrics tracker *)

Lemma Qofnat_S (n : nat) : (Qofnat (S n) == Qofnat n + 1)%Q.
Proof.
  unfold Qofnat. rewrite Nat2Z.inj_succ, <- Z.add_1_r, inject_Z_plus.
  reflexivity.
Qed.

Lemma Qofnat_S_nonzero (n : nat) : ~ (Qofnat (S n) == 0)%Q.
Proof.
  unfold Qofnat, Qeq. simpl. lia.
Qed.

Lemma update_performance_count (d : Q) (b : bool) (m : Metrics) :
  tasks_completed (update_performance d b m) = S (tasks_completed m).
Proof. reflexivity. Qed.

(** One more successful observation of duration [d] keeps a rate of 1 and a
    mean of [d]; the first observation establishes them. *)
Lemma update_performance_steady (d : Q) (m : Metrics) :
  tasks_completed m = O \/
    ((success_rate m == 1)%Q /\ (average_execution_time m == d)%Q) ->
  (success_rate (update_performance d true m) == 1)%Q
  /\ (average_execution_time (update_performance d true m) == d)%Q.
Proof.
  intros H. unfold update_performance. cbn [success_rate average_execution_time].
  replace (S (tasks_completed m) - 1)%nat with (tasks_completed m) by lia.
  pose proof (Qofnat_S_nonzero (tasks_completed m)) as Hnz.
  destruct H as [H0 | [Hr Ha]].
  - rewrite H0 in *. split.
    + unfold Qofnat. cbn. field.
    + unfold Qofnat. cbn. field.
  - rewrite Hr, Ha. rewrite Qofnat_S in *. split; field; exact Hnz.
Qed.

(** C8. Starting from the initial metrics (no task completed, rate 0, mean 0),
    after n >= 1 updates that all report success and the same duration d, the
    running success rate is 1 and the running mean duration is d.  The count
    n >= 1 is written [S n]. *)
Theorem metrics_convergence (n : nat) (d : Q) :
  let m := repeat_update (S n) d true initial_metrics in
  tasks_completed m = S n
  /\ (success_rate m == 1)%Q
  /\ (average_execution_time m == d)%Q.
Proof.
  induction n as [| n IH]; cbn zeta in *.
  - split; [reflexivity |].
    apply update_performance_steady. left. reflexivity.
  - destruct IH as (Hc & Hr & Ha).
    change (repeat_update (S (S n)) d true initial_metrics)
      with (update_performance d true
              (repeat_update (S n) d true initial_metrics)).
    split.
    + rewrite update_performance_count, Hc. reflexivity.
    + apply update_performance_steady. right. split; assumption.
Qed.

(** ** The system metrics *)

(** The success rate and the mean completion time of the system follow the
    incremental mean of the agents. *)
Lemma system_metrics_incremental (t : Q) (b : bool) (k : Z)
    (m : SystemMetrics) :
  let m' := _update_system_metrics t b k m in
  tasks_processed m' = S (tasks_processed m)
  /\ (sys_success_rate m'
      == incremental_rate (sys_success_rate m) (tasks_processed m) b)%Q
  /\ (average_completion_time m'
      == incremental_mean (average_completion_time m) (tasks_processed m) t)%Q.
Proof.
  cbn zeta. unfold _update_system_metrics, incremental_rate, incremental_mean.
  cbn [tasks_processed sys_success_rate average_completion_time].
  replace (S (tasks_processed m) - 1)%nat with (tasks_processed m) by lia.
  pose proof (Qofnat_S_nonzero (tasks_processed m)) as Hnz.
  destruct b; repeat split; try reflexivity; field; exact Hnz.
Qed.

(** When the work item was replanned, the replanning rate follows the
    incremental mean with the observation 1. *)
Lemma replanning_rate_replanned (t : Q) (b : bool) (k : Z)
    (m : SystemMetrics) :
  0 < k ->
  replanning_rate (_update_system_metrics t b k m)
  = incremental_rate (replanning_rate m) (tasks_processed m) true.
Proof.
  intros Hk. unfold _update_system_metrics, incremental_rate.
  cbn [replanning_rate].
  replace (S (tasks_processed m) - 1)%nat with (tasks_processed m) by lia.
  destruct (Z.ltb_spec 0 k); [reflexivity | lia].
Qed.

(** When it was not, the rate is left as it was. *)
Lemma replanning_rate_not_replanned (t : Q) (b : bool) (k : Z)
    (m : SystemMetrics) :
  k <= 0 ->
  replanning_rate (_update_system_metrics t b k m) = replanning_rate m.
Proof.
  intros Hk. unfold _update_system_metrics. cbn [replanning_rate].
  destruct (Z.ltb_spec 0 k); [lia | reflexivity].
Qed.

(** C4. The replanning rate is not the incremental mean of the observation
    "this work item was replanned": after a first work item that needed one
    replan (rate 1) and a second one that needed none, the code still reports
    1, where the incremental mean is 1/2. *)
Theorem replanning_rate_skips_unreplanned_items :
  let m1 := _update_system_metrics 10 true 1 initial_system_metrics in
  let m2 := _update_system_metrics 10 true 0 m1 in
  tasks_processed m1 = 1%nat
  /\ (replanning_rate m1 == 1)%Q
  /\ (replanning_rate m2 == 1)%Q
  /\ (incremental_rate (replanning_rate m1) (tasks_processed m1) false
      == 1 # 2)%Q
  /\ ~ (replanning_rate m2
        == incremental_rate (replanning_rate m1) (tasks_processed m1) false)%Q.
Proof.
  cbn zeta. repeat split; try reflexivity.
  intros H. vm_compute in H. discriminate H.
Qed.

(** ** The decomposer *)

Lemma _analyze_complexity_score (task : Task) :
  _analyze_complexity task = complexity_class (complexity_score task).
Proof.
  unfold _analyze_complexity, complexity_class, complexity_score, indicator.
  replace (bool_decide (t_priority task ∈ [HIGH; CRITICAL]))
    with (match t_priority task with
          | HIGH | CRITICAL => true
          | _ => false
          end)
    by (destruct (t_priority task); reflexivity).
  destruct (5 <? length (t_requirements task))%nat,
           (100 <? length (split (t_description task)))%nat,
           (t_priority task),
           (contains (U "integração") (str_lower (t_description task))),
           (contains (U "api") (str_lower (t_description task)));
    reflexivity.
Qed.

Lemma _choose_strategy_cases (c : Complexity) (p : TaskPriority) :
  (_choose_strategy c p = hybrid <-> c = high \/ p = CRITICAL)
  /\ (_choose_strategy c p = parallel <-> c = medium /\ p <> CRITICAL)
  /\ (_choose_strategy c p = sequential <-> c = low /\ p <> CRITICAL).
Proof.
  destruct c, p; vm_compute; intuition congruence.
Qed.

Lemma new_Plan_fields (id tid : pystr) (sts : list SubTask) (tot : Z)
    (c : Q) (a : pystr) (io : IO) :
  let p := (new_Plan id tid sts tot c a io).1 in
  p_task_id p = tid /\ p_subtasks p = sts /\ p_estimated_total_time p = tot
  /\ p_created_at p = c /\ p_agent_id p = a.
Proof.
  unfold new_Plan. destruct id; [destruct (io_uuid4 io) |]; cbn; auto.
Qed.

(** Case analysis on the readings of the clock and on the plan built. *)
Ltac step_io :=
  repeat match goal with
         | |- context [new_Plan ?a ?b ?c ?d ?e ?f ?g] =>
             let H := fresh "Hplan" in
             pose proof (new_Plan_fields a b c d e f g) as H;
             destruct (new_Plan a b c d e f g) as [? ?];
             cbn in H
         | |- context [io_time ?e] => destruct (io_time e) as [? ?]
         | |- context [io_uuid4 ?e] => destruct (io_uuid4 e) as [? ?]
         end.

Lemma planner_process_subtasks (self : Agent) (task : Task) (io : IO) :
  p_subtasks (planner_process self task io).1.1
  = _decompose_task task
      (_choose_strategy (_analyze_complexity task) (t_priority task)).
Proof.
  unfold planner_process. step_io. cbn. tauto.
Qed.

(** C5. For every work item, [decompose] classifies the complexity by the sum
    of the five indicators (more than 5 requirements, more than 100 words,
    priority HIGH or CRITICAL, the integration keyword, the API keyword):
    high from 3, medium from 1, low otherwise; the strategy is hybrid exactly
    when the complexity is high or the priority CRITICAL, parallel exactly
    when the complexity is medium and the priority is not CRITICAL, and
    sequential in the remaining case; the plan returned is the template of
    that strategy. *)
Theorem decompose_complexity_and_strategy (self : Agent) (task : Task)
    (io : IO) :
  let complexity := _analyze_complexity task in
  let strategy := _choose_strategy complexity (t_priority task) in
  complexity = complexity_class (complexity_score task)
  /\ (strategy = hybrid <->
      complexity = high \/ t_priority task = CRITICAL)
  /\ (strategy = parallel <->
      complexity = medium /\ t_priority task <> CRITICAL)
  /\ (strategy = sequential <->
      ~ (complexity = high \/ t_priority task = CRITICAL)
      /\ complexity <> medium)
  /\ p_subtasks (planner_process self task io).1.1
     = _decompose_task task strategy.
Proof.
  cbn zeta.
  pose proof (_choose_strategy_cases (_analyze_complexity task)
                                     (t_priority task)) as (Hh & Hp & Hs).
  split; [apply _analyze_complexity_score |].
  split; [exact Hh |]. split; [exact Hp |].
  split; [| apply planner_process_subtasks].
  rewrite Hs. destruct (_analyze_complexity task); intuition congruence.
Qed.

(** The loop of [replan] over a template never raises: the estimates of the
    three templates are multiples of 5, and the binary64 product with 1.2
    is the integer [6 * t / 5]. *)
Lemma add_time_buffer_template (task : Task) (strategy : Strategy) :
  add_time_buffer (_decompose_task task strategy)
  = inr (map (fun st =>
                set_estimated_time (6 * st_estimated_time st / 5) st)
             (_decompose_task task strategy)).
Proof.
  destruct strategy; vm_compute; reflexivity.
Qed.

Lemma replan_plan (self : Agent) (task : Task) (issues : list pystr)
    (io : IO) :
  exists plan,
    (replan self task issues io).1 = inr plan
    /\ p_task_id plan = t_id task
    /\ p_agent_id plan = agent_id self
    /\ p_subtasks plan
       = map (fun st =>
                set_estimated_time (6 * st_estimated_time st / 5) st)
             (_decompose_task task (replan_strategy issues))
    /\ p_estimated_total_time plan = sum_estimated_time (p_subtasks plan).
Proof.
  unfold replan. rewrite add_time_buffer_template. step_io. cbn.
  eexists. split; [reflexivity |].
  destruct Hplan as (-> & -> & -> & _ & ->). auto.
Qed.

(** C6. Two calls of [replan] on the same work item and the same issues, at
    any two moments (whatever the clock, the uuids drawn and the metrics of
    the planner are), return plans built from the same strategy, whose
    subtask lists are equal: in particular they agree, position by position,
    in title, order, dependencies and buffered estimate. *)
Theorem replan_idempotent (self1 self2 : Agent) (task : Task)
    (issues : list pystr) (io1 io2 : IO) :
  exists plan1 plan2 strategy,
    (replan self1 task issues io1).1 = inr plan1
    /\ (replan self2 task issues io2).1 = inr plan2
    /\ strategy = replan_strategy issues
    /\ Forall2 (fun template st =>
                  st = set_estimated_time (st_estimated_time st) template)
               (_decompose_task task strategy) (p_subtasks plan1)
    /\ p_subtasks plan1 = p_subtasks plan2
    /\ p_estimated_total_time plan1 = p_estimated_total_time plan2
    /\ Forall2 (fun a b =>
                  st_title a = st_title b /\ st_order a = st_order b
                  /\ st_dependencies a = st_dependencies b
                  /\ st_estimated_time a = st_estimated_time b)
               (p_subtasks plan1) (p_subtasks plan2).
Proof.
  destruct (replan_plan self1 task issues io1) as (p1 & H1 & _ & _ & S1 & T1).
  destruct (replan_plan self2 task issues io2) as (p2 & H2 & _ & _ & S2 & T2).
  exists p1, p2, (replan_strategy issues).
  split; [exact H1 |]. split; [exact H2 |]. split; [reflexivity |].
  assert (p_subtasks p1 = p_subtasks p2) as Heq by congruence.
  split.
  { rewrite S1. apply Forall2_fmap_r, Forall_Forall2_diag, Forall_forall.
    intros st _. reflexivity. }
  split; [exact Heq |]. split; [congruence |].
  rewrite <- Heq. apply Forall_Forall2_diag, Forall_forall. intros st _. auto.
Qed.

(** C7. Every subtask of a plan returned by [replan] has the estimate
    round(t * 1.2), where t is the estimate of the same subtask in the
    template of the chosen strategy, and is otherwise the subtask of the
    template; the new estimate is exactly t increased by 20%. *)
Theorem replan_time_buffer (self : Agent) (task : Task)
    (issues : list pystr) (io : IO) :
  exists plan,
    (replan self task issues io).1 = inr plan
    /\ Forall2 (fun before after =>
                  st_estimated_time after
                  = round_half_even (QofZ (st_estimated_time before)
                                     * dec 12 10)
                  /\ 5 * st_estimated_time after
                     = 6 * st_estimated_time before
                  /\ after
                     = set_estimated_time (st_estimated_time after) before)
               (_decompose_task task (replan_strategy issues))
               (p_subtasks plan).
Proof.
  destruct (replan_plan self task issues io) as (p & H & _ & _ & S & _).
  exists p. split; [exact H |]. rewrite S.
  apply Forall2_fmap_r, Forall_Forall2_diag.
  destruct (replan_strategy issues);
    repeat (constructor; [repeat split; vm_compute; reflexivity |]);
    constructor.
Qed.

(** ** What the agents print *)

Lemma logs_no_replanning_refl (io : IO) : logs_no_replanning io io.
Proof. exists []. rewrite app_nil_r. auto. Qed.

Lemma logs_no_replanning_trans (io1 io2 io3 : IO) :
  logs_no_replanning io1 io2 -> logs_no_replanning io2 io3 ->
  logs_no_replanning io1 io3.
Proof.
  intros (a & Ha & Fa) (b & Hb & Fb). exists (a ++ b).
  rewrite Hb, Ha, app_assoc. split; [reflexivity |].
  apply Forall_app. auto.
Qed.

Lemma io_time_out (io : IO) : io_out (io_time io).2 = io_out io.
Proof. unfold io_time. destruct (time_time (io_world io)). reflexivity. Qed.

Lemma io_uuid4_out (io : IO) : io_out (io_uuid4 io).2 = io_out io.
Proof. unfold io_uuid4. destruct (uuid4 (io_world io)). reflexivity. Qed.

Lemma io_time_no_replanning (io : IO) :
  logs_no_replanning io (io_time io).2.
Proof. exists []. rewrite io_time_out, app_nil_r. auto. Qed.

Lemma io_uuid4_no_replanning (io : IO) :
  logs_no_replanning io (io_uuid4 io).2.
Proof. exists []. rewrite io_uuid4_out, app_nil_r. auto. Qed.

Lemma log_activity_out (a : Agent) (act : Activity) (io : IO) :
  exists line,
    io_out (log_activity a act io) = io_out io ++ [line]
    /\ log_activity_of line = act.
Proof.
  unfold log_activity. pose proof (io_time_out io) as H.
  destruct (io_time io) as [t io1]. cbn in *. rewrite H. eauto.
Qed.

Lemma log_activity_no_replanning (a : Agent) (act : Activity) (io : IO) :
  is_replanning act = false ->
  logs_no_replanning io (log_activity a act io).
Proof.
  intros Hact. destruct (log_activity_out a act io) as (line & Hout & Hline).
  exists [line]. split; [exact Hout |].
  constructor; [rewrite Hline; exact Hact | constructor].
Qed.

Lemma new_Plan_no_replanning (id tid : pystr) (sts : list SubTask) (tot : Z)
    (c : Q) (a : pystr) (io : IO) :
  logs_no_replanning io (new_Plan id tid sts tot c a io).2.
Proof.
  unfold new_Plan. destruct id; [| apply logs_no_replanning_refl].
  pose proof (io_uuid4_no_replanning io). destruct (io_uuid4 io). assumption.
Qed.

(** Case analysis on the next reading of the clock, uuid or plan built,
    recording that it adds no line. *)
Ltac split_io :=
  match goal with
  | |- context [io_time ?e] =>
      let H := fresh "Hlog" in
      pose proof (io_time_no_replanning e) as H;
      destruct (io_time e) as [? ?]; cbn [fst snd] in H
  | |- context [io_uuid4 ?e] =>
      let H := fresh "Hlog" in
      pose proof (io_uuid4_no_replanning e) as H;
      destruct (io_uuid4 e) as [? ?]; cbn [fst snd] in H
  | |- context [new_Plan ?a ?b ?c ?d ?e ?f ?g] =>
      let H := fresh "Hlog" in
      let H' := fresh "Hplan" in
      pose proof (new_Plan_no_replanning a b c d e f g) as H;
      pose proof (new_Plan_fields a b c d e f g) as H';
      destruct (new_Plan a b c d e f g) as [? ?]; cbn [fst snd] in H, H'
  end.

(** Chains the recorded steps and the lines logged, none of which is the line
    of [replan]. *)
Ltac chain_logs :=
  repeat first
    [ apply logs_no_replanning_refl
    | match goal with
      | |- logs_no_replanning ?io (log_activity ?a ?act ?io1) =>
          apply (logs_no_replanning_trans io io1);
          [| apply log_activity_no_replanning; reflexivity]
      | H : logs_no_replanning ?io1 ?io2 |- logs_no_replanning ?io ?io2 =>
          apply (logs_no_replanning_trans io io1 io2); [| exact H]
      end ].

Lemma planner_process_no_replanning (self : Agent) (task : Task) (io : IO) :
  logs_no_replanning io (planner_process self task io).2.
Proof.
  unfold planner_process. repeat split_io. cbn. chain_logs.
Qed.

(** ** One dispatch *)

Lemma execute_subtask_spec (self : Agent) (subtask : SubTask) (io : IO) :
  exists r self' io',
    execute_subtask self subtask io
    = (r, set_subtask_status IN_PROGRESS subtask, self', io')
    /\ er_subtask_id r = Some (st_id subtask)
    /\ er_task_id r = st_parent_task_id subtask
    /\ (always_succeeds -> er_success r = true)
    /\ logs_no_replanning io io'.
Proof.
  unfold execute_subtask. split_io.
  match goal with
  | |- context [run_strategy ?s ?st ?w] =>
      pose proof (fun H : always_succeeds => H s st w) as Hok;
      destruct (run_strategy s st w) as [outcome w']
  end.
  match goal with
  | |- context [io_time (mkIO w' ?out)] =>
      assert (logs_no_replanning (mkIO (io_world (log_activity self
                (LogSubtaskStarted (st_title subtask)) i)) out)
                (mkIO w' out)) as Hrun
        by (exists []; cbn; rewrite app_nil_r; auto)
  end.
  cbn [io_out io_world] in Hrun.
  assert (logs_no_replanning i (mkIO w' (io_out (log_activity self
            (LogSubtaskStarted (st_title subtask)) i)))) as Hstart.
  { destruct (log_activity_out self (LogSubtaskStarted (st_title subtask)) i)
      as (line & Hout & Hline).
    exists [line]. cbn. split; [exact Hout |].
    constructor; [rewrite Hline; reflexivity | constructor]. }
  clear Hrun. unfold new_ExecutionResult.
  destruct outcome as [msg | output]; repeat split_io;
    do 3 eexists; (split; [reflexivity |]); cbn;
    (split; [reflexivity |]); (split; [reflexivity |]); split.
  - intros Hall. destruct (Hok Hall) as (? & ? & Heq). discriminate Heq.
  - chain_logs.
  - reflexivity.
  - chain_logs.
Qed.

(** What one iteration of the [for] loop does to the state. *)
Lemma dispatch_spec (i : nat) (s : ExecState) (subtask : SubTask) :
  xs_subtasks s !! i = Some subtask ->
  exists r,
    er_subtask_id r = Some (st_id subtask)
    /\ (always_succeeds -> er_success r = true)
    /\ xs_results (dispatch i s) = xs_results s ++ [r]
    /\ xs_subtasks (dispatch i s)
       = <[i := set_subtask_status
                  (if er_success r then COMPLETED else FAILED) subtask]>
           (xs_subtasks s)
    /\ xs_executed (dispatch i s)
       = (if er_success r then xs_executed s ∪ {[st_id subtask]}
          else xs_executed s)
    /\ logs_no_replanning (xs_io s) (xs_io (dispatch i s)).
Proof.
  intros Hi. unfold dispatch. rewrite Hi.
  destruct (execute_subtask_spec (xs_self s) subtask (xs_io s))
    as (r & self' & io' & -> & Hid & _ & Hok & Hlog).
  exists r. split; [exact Hid |]. split; [exact Hok |].
  destruct (er_success r); cbn; repeat split; try reflexivity.
  - exact Hlog.
  - chain_logs.
Qed.

(** ** What the executor and the verifier print *)

Lemma run_ready_no_replanning (ready : list nat) (s : ExecState) :
  logs_no_replanning (xs_io s) (xs_io (run_ready ready s)).
Proof.
  revert s. induction ready as [| i ready IH]; intros s.
  - apply logs_no_replanning_refl.
  - change (run_ready (i :: ready) s) with (run_ready ready (dispatch i s)).
    eapply logs_no_replanning_trans; [| apply IH].
    destruct (xs_subtasks s !! i) as [subtask |] eqn:Hi.
    + destruct (dispatch_spec i s subtask Hi) as (r & _ & _ & _ & _ & _ & H).
      exact H.
    + unfold dispatch. rewrite Hi. apply logs_no_replanning_refl.
Qed.

Lemma exec_loop_no_replanning (fuel : nat) (s s' : ExecState) :
  exec_loop fuel s = Some s' ->
  logs_no_replanning (xs_io s) (xs_io s').
Proof.
  revert s. induction fuel as [| fuel IH]; intros s; cbn [exec_loop];
    case_bool_decide;
    try (intros [= <-]; apply logs_no_replanning_refl);
    destruct (_get_ready_subtasks (xs_subtasks s) (xs_executed s))
      as [| i ready] eqn:Hready;
    try (intros [= <-]; cbn; chain_logs); try discriminate.
  intros Hloop. apply IH in Hloop.
  eapply logs_no_replanning_trans; [| exact Hloop].
  apply run_ready_no_replanning.
Qed.

Lemma executor_process_no_replanning (fuel : nat) (self self' : Agent)
    (plan plan' : Plan) (io io' : IO) (results : list ExecutionResult) :
  executor_process fuel self plan io = Some (results, plan', self', io') ->
  logs_no_replanning io io'.
Proof.
  unfold executor_process.
  destruct (exec_loop fuel _) as [s |] eqn:Hloop; [| discriminate].
  intros [= _ _ _ <-]. apply exec_loop_no_replanning in Hloop.
  cbn in Hloop. chain_logs.
Qed.

Lemma verifier_process_no_replanning (self : Agent)
    (results : list ExecutionResult) (task : Task) (io : IO) :
  logs_no_replanning io (verifier_process self results task io).2.
Proof.
  unfold verifier_process. split_io.
  destruct (verify_all results); repeat split_io; cbn; chain_logs.
Qed.

(** ** The ready set *)

Lemma is_ready_true (executed : gset pystr) (subtask : SubTask) :
  is_ready executed subtask = true ->
  (st_id subtask ∉ executed)
  /\ st_status subtask <> COMPLETED
  /\ forall dep_id, dep_id ∈ st_dependencies subtask -> dep_id ∈ executed.
Proof.
  unfold is_ready. repeat case_bool_decide; cbn; try discriminate.
  intros Hall. repeat split; try assumption.
  intros dep_id Hin. rewrite forallb_forall in Hall.
  apply list_elem_of_In, Hall in Hin. case_bool_decide; [assumption | discriminate].
Qed.

Lemma ready_from_spec (k : nat) (subtasks : list SubTask)
    (executed : gset pystr) (i : nat) :
  i ∈ ready_from k subtasks executed ->
  (k <= i)%nat
  /\ exists subtask,
       subtasks !! (i - k)%nat = Some subtask
       /\ is_ready executed subtask = true.
Proof.
  revert k. induction subtasks as [| st rest IH]; intros k; cbn.
  - intros H. inversion H.
  - destruct (is_ready executed st) eqn:Hready.
    + intros [-> | Hin]%elem_of_cons.
      * split; [lia |]. exists st. rewrite Nat.sub_diag. auto.
      * apply IH in Hin as (Hle & st' & Hl & Hr). split; [lia |].
        exists st'. replace (i - k)%nat with (S (i - S k)) by lia. auto.
    + intros Hin. apply IH in Hin as (Hle & st' & Hl & Hr). split; [lia |].
      exists st'. replace (i - k)%nat with (S (i - S k)) by lia. auto.
Qed.

Lemma ready_from_NoDup (k : nat) (subtasks : list SubTask)
    (executed : gset pystr) :
  NoDup (ready_from k subtasks executed).
Proof.
  revert k. induction subtasks as [| st rest IH]; intros k; cbn.
  - constructor.
  - destruct (is_ready executed st); [| apply IH].
    constructor; [| apply IH].
    intros Hin. apply ready_from_spec in Hin as [Hle _]. lia.
Qed.

Lemma _get_ready_subtasks_spec (subtasks : list SubTask)
    (executed : gset pystr) (i : nat) :
  i ∈ _get_ready_subtasks subtasks executed ->
  exists subtask,
    subtasks !! i = Some subtask
    /\ st_status subtask <> COMPLETED
    /\ (st_id subtask ∉ executed)
    /\ forall dep_id, dep_id ∈ st_dependencies subtask -> dep_id ∈ executed.
Proof.
  intros Hin. apply ready_from_spec in Hin as (_ & st & Hl & Hr).
  rewrite Nat.sub_0_r in Hl. apply is_ready_true in Hr as (? & ? & ?).
  eauto 6.
Qed.

(** ** The loop of the executor proceeds in rounds *)

Lemma same_subtask_refl (a : SubTask) : same_subtask a a.
Proof. destruct a. reflexivity. Qed.

Lemma same_subtask_id (a b : SubTask) :
  same_subtask a b ->
  st_id a = st_id b /\ st_dependencies a = st_dependencies b.
Proof. intros ->. split; reflexivity. Qed.

Lemma same_subtask_status (c : TaskStatus) (a b : SubTask) :
  same_subtask a b -> same_subtask (set_subtask_status c a) b.
Proof. intros ->. reflexivity. Qed.

Lemma run_ready_in_rounds (subtasks0 : list SubTask) (todo : list nat)
    (s : ExecState) (round_start : gset pystr) (completed : gset nat) :
  tracks subtasks0 s round_start completed ->
  NoDup todo ->
  (forall i, i ∈ todo ->
     exists st,
       xs_subtasks s !! i = Some st
       /\ st_status st <> COMPLETED
       /\ (st_id st ∉ round_start)
       /\ forall dep_id,
            dep_id ∈ st_dependencies st -> dep_id ∈ round_start) ->
  exists completed',
    tracks subtasks0 (run_ready todo s) round_start completed'.
Proof.
  revert s completed.
  induction todo as [| i todo IH];
    intros s completed (Hshape & Hrounds & Hdone) Hnd Hready.
  - exists completed. repeat split; assumption.
  - change (run_ready (i :: todo) s) with (run_ready todo (dispatch i s)).
    apply NoDup_cons in Hnd as [Hi Hnd].
    destruct (Hready i) as (st & Hl & Hstatus & Hfresh & Hdeps); [left |].
    destruct (dispatch_spec i s st Hl)
      as (r & Hrid & Hok & Hres & Hsts & Hex & _).
    destruct (Forall2_lookup_l _ _ _ _ _ Hshape Hl) as (st0 & Hl0 & Hsame).
    pose proof (same_subtask_id _ _ Hsame) as [Hid Hdep].
    assert (i ∉ completed) as Hnew.
    { intros Hin. destruct (Hdone i Hin) as (st' & Hl' & Hc). congruence. }
    apply (IH (dispatch i s)
              (if er_success r then completed ∪ {[i]} else completed)).
    + split; [| split].
      * rewrite Hsts, <- (list_insert_id subtasks0 i st0 Hl0).
        apply Forall2_insert; [assumption |].
        apply same_subtask_status. assumption.
      * rewrite Hres, Hex, Hid.
        apply in_rounds_step; try assumption.
        -- rewrite <- Hid. assumption.
        -- rewrite <- Hdep. assumption.
        -- rewrite <- Hid. assumption.
      * intros j Hj. rewrite Hsts.
        destruct (decide (i = j)) as [<- | Hne].
        -- destruct (er_success r); [| contradiction].
           rewrite list_lookup_insert_eq by (eapply lookup_lt_Some; eassumption).
           eexists. split; reflexivity.
        -- rewrite list_lookup_insert_ne by assumption. apply Hdone.
           destruct (er_success r); [| assumption].
           apply elem_of_union in Hj as [Hj | Hj%elem_of_singleton];
             [assumption | congruence].
    + assumption.
    + intros j Hj.
      destruct (Hready j) as (stj & Hlj & Hsj & Hfj & Hdj); [right; assumption |].
      assert (i <> j) as Hne by (intros ->; contradiction).
      exists stj. rewrite Hsts, list_lookup_insert_ne by assumption. auto.
Qed.

Lemma exec_loop_in_rounds (subtasks0 : list SubTask) (fuel : nat)
    (s s' : ExecState) (round_start : gset pystr) (completed : gset nat) :
  tracks subtasks0 s round_start completed ->
  exec_loop fuel s = Some s' ->
  exists round_start' completed',
    in_rounds subtasks0 (xs_results s') round_start' (xs_executed s')
              completed'
    /\ ((size (xs_executed s') < length subtasks0)%nat ->
        logged_circular (xs_io s')).
Proof.
  revert s round_start completed.
  assert (forall (s : ExecState) round_start completed,
            tracks subtasks0 s round_start completed ->
            let s1 := mkExecState (xs_subtasks s) (xs_executed s)
                        (xs_results s) (xs_self s)
                        (log_activity (xs_self s) LogCircularDependency
                                      (xs_io s)) in
            exists round_start' completed',
              in_rounds subtasks0 (xs_results s1) round_start'
                        (xs_executed s1) completed'
              /\ ((size (xs_executed s1) < length subtasks0)%nat ->
                  logged_circular (xs_io s1))) as Hbreak.
  { intros s round_start completed (_ & Hrounds & _). cbn.
    exists round_start, completed. split; [assumption | intros _].
    destruct (log_activity_out (xs_self s) LogCircularDependency (xs_io s))
      as (line & Hout & Hline).
    unfold logged_circular. rewrite Hout.
    apply Exists_app. right. left. assumption. }
  induction fuel as [| fuel IH]; intros s round_start completed Htracks;
    pose proof Htracks as (Hshape & Hrounds & Hdone);
    pose proof (Forall2_length _ _ _ Hshape) as Hlen; cbn [exec_loop];
    case_bool_decide as Hcond.
  - destruct (_get_ready_subtasks (xs_subtasks s) (xs_executed s));
      [| discriminate].
    intros [= <-]. eapply Hbreak. eassumption.
  - intros [= <-]. exists round_start, completed.
    split; [assumption | lia].
  - destruct (_get_ready_subtasks (xs_subtasks s) (xs_executed s))
      as [| i ready] eqn:Hready.
    + intros [= <-]. eapply Hbreak. eassumption.
    + intros Hloop.
      destruct (run_ready_in_rounds subtasks0 (i :: ready) s (xs_executed s)
                                    completed) as (completed' & Htracks').
      * split; [assumption |]. split; [| assumption].
        eapply in_rounds_next. eassumption.
      * rewrite <- Hready. apply ready_from_NoDup.
      * intros j Hj. rewrite <- Hready in Hj.
        apply _get_ready_subtasks_spec. assumption.
      * eapply IH; eassumption.
  - intros [= <-]. exists round_start, completed.
    split; [assumption | lia].
Qed.

(** ** Consequences of the rounds *)

Lemma count_success_snoc (b : bool) (results : list ExecutionResult)
    (r : ExecutionResult) :
  count_success b (results ++ [r])
  = (count_success b results
     + (if bool_decide (er_success r = b) then 1 else 0))%nat.
Proof.
  unfold count_success. rewrite filter_app, length_app. f_equal.
  rewrite filter_cons, filter_nil. case_decide as H.
  - rewrite bool_decide_eq_true_2 by assumption. reflexivity.
  - rewrite bool_decide_eq_false_2 by assumption. reflexivity.
Qed.

Lemma not_in_empty `{Countable A} (x : A) : x ∈ (∅ : gset A) -> False.
Proof. apply not_elem_of_empty. Qed.

Lemma size_add_new `{Countable A} (X : gset A) (x : A) :
  x ∉ X -> size (X ∪ {[x]}) = S (size X).
Proof.
  intros Hx. rewrite size_union, size_singleton, Nat.add_1_r;
    [reflexivity | apply disjoint_singleton_r; assumption].
Qed.

Lemma size_add_le `{Countable A} (X : gset A) (x : A) :
  (size (X ∪ {[x]}) <= S (size X))%nat.
Proof.
  destruct (decide (x ∈ X)) as [Hin | Hout].
  - replace (X ∪ {[x]}) with X; [lia |].
    apply set_eq. intros y. rewrite elem_of_union, elem_of_singleton.
    split; [auto | intros [? | ->]; assumption].
  - rewrite size_add_new by assumption. lia.
Qed.

Section Rounds.
Variable subtasks : list SubTask.

Lemma in_rounds_start (results : list ExecutionResult)
    (round_start executed : gset pystr) (completed : gset nat) :
  in_rounds subtasks results round_start executed completed ->
  round_start ⊆ executed.
Proof.
  induction 1 as [| ? ? ? ? _ _
                  | results round_start executed completed i st r _ IH
                      _ _ _ _ _ _].
  - reflexivity.
  - reflexivity.
  - destruct (er_success r); [| assumption].
    etrans; [eassumption | apply union_subseteq_l].
Qed.

(** The executed ids are the ids of the completed positions. *)
Lemma in_rounds_executed (results : list ExecutionResult)
    (round_start executed : gset pystr) (completed : gset nat) :
  in_rounds subtasks results round_start executed completed ->
  forall id,
    id ∈ executed <->
    exists i st, i ∈ completed /\ subtasks !! i = Some st /\ st_id st = id.
Proof.
  induction 1 as [| ? ? ? ? _ IH
                  | results round_start executed completed i st r _ IH
                      Hl _ _ _ _ _]; intros id.
  - split.
    + intros H. destruct (not_in_empty _ H).
    + intros (i & st & H & _). destruct (not_in_empty _ H).
  - apply IH.
  - destruct (er_success r); [| apply IH].
    rewrite elem_of_union, elem_of_singleton, IH. split.
    + intros [(j & stj & Hj & Hlj & Hid) | ->].
      * exists j, stj. split; [apply elem_of_union; left; exact Hj |].
        split; assumption.
      * exists i, st. split; [| split; [assumption | reflexivity]].
        apply elem_of_union. right. apply elem_of_singleton. reflexivity.
    + intros (j & stj & Hj & Hlj & Hid).
      apply elem_of_union in Hj as [Hj | Hj%elem_of_singleton].
      * left. exists j, stj. split; [assumption |]. split; assumption.
      * right. subst j. congruence.
Qed.

Lemma in_rounds_completed (results : list ExecutionResult)
    (round_start executed : gset pystr) (completed : gset nat) :
  in_rounds subtasks results round_start executed completed ->
  forall i, i ∈ completed -> (i < length subtasks)%nat.
Proof.
  induction 1 as [| ? ? ? ? _ IH
                  | results round_start executed completed i st r _ IH
                      Hl _ _ _ _ _]; intros j Hj.
  - destruct (not_in_empty _ Hj).
  - auto.
  - destruct (er_success r); [| auto].
    apply elem_of_union in Hj as [Hj | Hj%elem_of_singleton]; [auto |].
    subst j. eapply lookup_lt_Some. eassumption.
Qed.

(** The successful results are as many as the completed positions, and the
    executed ids no more. *)
Lemma in_rounds_count (results : list ExecutionResult)
    (round_start executed : gset pystr) (completed : gset nat) :
  in_rounds subtasks results round_start executed completed ->
  count_success true results = size completed
  /\ (size executed <= size completed)%nat.
Proof.
  induction 1 as [| ? ? ? ? _ IH
                  | results round_start executed completed i st r _ IH
                      _ Hnew _ _ _ _].
  - split; [reflexivity |]. rewrite !size_empty. lia.
  - assumption.
  - destruct IH as [IHc IHs]. rewrite count_success_snoc, IHc.
    destruct (er_success r); case_bool_decide; try congruence.
    + rewrite size_add_new by assumption.
      pose proof (size_add_le executed (st_id st)). lia.
    + lia.
Qed.

(** When no work function fails, every result is a success. *)
Lemma in_rounds_length (results : list ExecutionResult)
    (round_start executed : gset pystr) (completed : gset nat) :
  always_succeeds ->
  in_rounds subtasks results round_start executed completed ->
  length results = size completed.
Proof.
  intros Hall.
  induction 1 as [| ? ? ? ? _ IH
                  | results round_start executed completed i st r _ IH
                      _ Hnew _ _ _ Hok].
  - reflexivity.
  - assumption.
  - rewrite length_app, IH, (Hok Hall), size_add_new by assumption.
    cbn. lia.
Qed.

(** *** Cycles *)

Lemma depends_on_true (a b : pystr) :
  depends_on subtasks a b = true ->
  exists st, st ∈ subtasks /\ st_id st = a /\ b ∈ st_dependencies st.
Proof.
  unfold depends_on. rewrite existsb_exists.
  intros (st & Hin%list_elem_of_In & [H1 H2]%andb_prop).
  apply bool_decide_eq_true_1 in H1, H2. eauto.
Qed.

Lemma dependency_chain_successor (rest : list pystr) (a back x : pystr) :
  dependency_chain subtasks a rest back = true ->
  x ∈ a :: rest ->
  exists y, y ∈ rest ++ [back] /\ depends_on subtasks x y = true.
Proof.
  revert a. induction rest as [| b rest IH]; intros a; cbn.
  - intros Hdep ->%list_elem_of_singleton. exists back.
    split; [left | assumption].
  - intros [Hab Hchain]%andb_prop [-> | Hx]%elem_of_cons.
    + exists b. split; [left | assumption].
    + destruct (IH b Hchain Hx) as (y & Hy & Hdep).
      exists y. split; [right |]; assumption.
Qed.

(** In a cycle every id depends on an id of the cycle. *)
Lemma cycle_successor (cycle : list pystr) (x : pystr) :
  is_cycle subtasks cycle = true ->
  x ∈ cycle ->
  exists y, y ∈ cycle /\ depends_on subtasks x y = true.
Proof.
  destruct cycle as [| a rest]; [discriminate |]. cbn. intros Hchain Hx.
  destruct (dependency_chain_successor _ _ _ _ Hchain Hx)
    as (y & Hy & Hdep).
  exists y. split; [| assumption].
  apply elem_of_app in Hy as [Hy | ->%list_elem_of_singleton];
    [right; assumption | left].
Qed.

(** Every id of a cycle is the id of a subtask that lies on the cycle. *)
Lemma cycle_position (cycle : list pystr) (x : pystr) :
  is_cycle subtasks cycle = true ->
  x ∈ cycle ->
  exists i st, subtasks !! i = Some st /\ st_id st = x /\ on_cycle cycle st.
Proof.
  intros Hcycle Hx.
  destruct (cycle_successor _ _ Hcycle Hx) as (y & Hy & Hdep).
  apply depends_on_true in Hdep
      as (st & [i Hi]%list_elem_of_lookup & Hid & Hd).
  exists i, st. split; [assumption |]. split; [assumption |].
  split; [rewrite Hid; assumption |].
  apply Exists_exists. eauto.
Qed.

(** Either no subtask of the cycle has succeeded, or one of them has not
    while its id was already executed when the round started: that one will
    never be dispatched. *)
Lemma in_rounds_cycle (cycle : list pystr) (results : list ExecutionResult)
    (round_start executed : gset pystr) (completed : gset nat) :
  is_cycle subtasks cycle = true ->
  in_rounds subtasks results round_start executed completed ->
  (forall i st,
     i ∈ completed -> subtasks !! i = Some st -> ~ on_cycle cycle st)
  \/ (exists j st,
        subtasks !! j = Some st /\ on_cycle cycle st
        /\ (j ∉ completed) /\ st_id st ∈ round_start).
Proof.
  intros Hcycle.
  induction 1 as [| results round_start executed completed Hrounds IH
                  | results round_start executed completed i st r Hrounds IH
                      Hl Hnew Hfresh Hdeps _ _].
  - left. intros i st Hi. destruct (not_in_empty _ Hi).
  - destruct IH as [IH | (j & st & Hl & Hon & Hj & Hin)]; [left; assumption |].
    right. exists j, st. repeat split; try assumption; try apply Hon.
    eapply in_rounds_start; eassumption.
  - destruct (er_success r); [| assumption].
    destruct IH as [IH | (j & stj & Hlj & Hon & Hj & Hin)].
    + destruct (decide (on_cycle cycle st)) as [[_ Hdep] | Hoff].
      * apply Exists_exists in Hdep as (y & Hy & Hyd).
        destruct (cycle_position _ _ Hcycle Hy) as (j & stj & Hlj & Hid & Hon).
        right. exists j, stj.
        assert (st_id stj ∈ round_start) as Hin
          by (rewrite Hid; apply Hdeps; assumption).
        split; [assumption |]. split; [assumption |].
        split; [| assumption].
        intros [Hj | Hj%elem_of_singleton]%elem_of_union.
        -- exact (IH j stj Hj Hlj Hon).
        -- subst j. congruence.
      * left. intros j stj [Hj | Hj%elem_of_singleton]%elem_of_union Hlj.
        -- eauto.
        -- subst j. congruence.
    + right. exists j, stj. split; [assumption |]. split; [assumption |].
      split; [| assumption].
      intros [Hj' | Hj'%elem_of_singleton]%elem_of_union; [contradiction |].
      subst j. congruence.
Qed.

(** With a cycle, some subtask never succeeds. *)
Lemma in_rounds_cycle_size (results : list ExecutionResult)
    (round_start executed : gset pystr) (completed : gset nat) :
  has_cycle subtasks ->
  in_rounds subtasks results round_start executed completed ->
  (size completed < length subtasks)%nat.
Proof.
  intros [cycle Hcycle] Hrounds.
  assert (exists j, (j < length subtasks)%nat /\ j ∉ completed)
    as (j & Hlt & Hj).
  { destruct (in_rounds_cycle _ _ _ _ _ Hcycle Hrounds)
      as [Hnone | (j & st & Hl & _ & Hj & _)].
    - destruct cycle as [| a rest] eqn:Hc; [discriminate |].
      rewrite <- Hc in *.
      destruct (cycle_position cycle a Hcycle)
        as (j & st & Hl & _ & Hon); [rewrite Hc; left |].
      exists j. split; [eapply lookup_lt_Some; eassumption |].
      intros Hin. exact (Hnone j st Hin Hl Hon).
    - exists j. split; [eapply lookup_lt_Some; eassumption | assumption]. }
  assert (completed ⊆ set_seq 0 (length subtasks) ∖ {[j]}) as Hsub.
  { intros k Hk. apply elem_of_difference. split.
    - apply elem_of_set_seq.
      pose proof (in_rounds_completed _ _ _ _ Hrounds k Hk). lia.
    - intros ->%elem_of_singleton. contradiction. }
  apply subseteq_size in Hsub.
  rewrite size_difference, size_singleton, size_set_seq in Hsub; [lia |].
  apply singleton_subseteq_l, elem_of_set_seq. lia.
Qed.

(** *** Plans with distinct ids *)

Hypothesis distinct_ids : NoDup (st_id <$> subtasks).

Lemma distinct_ids_position (i j : nat) (a b : SubTask) :
  subtasks !! i = Some a -> subtasks !! j = Some b -> st_id a = st_id b ->
  i = j.
Proof.
  intros Hi Hj Hid. apply (NoDup_lookup _ i j (st_id a) distinct_ids).
  - rewrite list_lookup_fmap, Hi. reflexivity.
  - rewrite list_lookup_fmap, Hj. cbn. congruence.
Qed.

Lemma distinct_ids_inj (a b : SubTask) :
  a ∈ subtasks -> b ∈ subtasks -> st_id a = st_id b -> a = b.
Proof.
  intros [i Hi]%list_elem_of_lookup [j Hj]%list_elem_of_lookup Hid.
  assert (i = j) as -> by (eapply distinct_ids_position; eassumption).
  congruence.
Qed.

(** With distinct ids, a subtask that is dispatched has no successful result
    yet. *)
Lemma in_rounds_scheduled (results : list ExecutionResult)
    (round_start executed : gset pystr) (completed : gset nat) :
  in_rounds subtasks results round_start executed completed ->
  scheduled subtasks results executed.
Proof.
  induction 1 as [| ? ? ? ? _ IH
                  | results round_start executed completed i st r Hrounds IH
                      Hl Hnew Hfresh Hdeps Hid Hok].
  - constructor.
  - assumption.
  - apply scheduled_step; try assumption.
    + eapply list_elem_of_lookup_2. eassumption.
    + intros Hin.
      apply (in_rounds_executed _ _ _ _ Hrounds) in Hin
          as (j & stj & Hj & Hlj & Hidj).
      assert (j = i) as -> by (eapply distinct_ids_position; eassumption).
      contradiction.
    + intros d Hd. eapply in_rounds_start; [eassumption |]. auto.
Qed.

End Rounds.

(** ** Consequences of the scheduling discipline *)

Lemma succeeded_snoc (results : list ExecutionResult) (r : ExecutionResult)
    (id : pystr) :
  er_subtask_id r = Some id ->
  succeeded (results ++ [r])
  = succeeded results ++ (if er_success r then [id] else []).
Proof.
  intros Hid. unfold succeeded. rewrite omap_app. cbn.
  destruct (er_success r); [rewrite Hid |]; reflexivity.
Qed.

Lemma scheduled_executed (subtasks : list SubTask)
    (results : list ExecutionResult) (executed : gset pystr) :
  scheduled subtasks results executed ->
  forall id, id ∈ executed <-> id ∈ succeeded results.
Proof.
  induction 1 as [| results executed st r _ IH _ _ _ Hid _]; intros id.
  - cbn. split; intros H; [destruct (not_in_empty _ H) | inversion H].
  - rewrite (succeeded_snoc _ _ _ Hid), elem_of_app.
    destruct (er_success r).
    + rewrite elem_of_union, elem_of_singleton, IH, list_elem_of_singleton.
      reflexivity.
    + rewrite IH. split; [auto | intros [H | H]; [assumption | inversion H]].
Qed.

Lemma scheduled_well_scheduled (subtasks : list SubTask)
    (results : list ExecutionResult) (executed : gset pystr) :
  scheduled subtasks results executed -> well_scheduled subtasks results.
Proof.
  induction 1 as [| results executed st r Hsched IH Hin Hfresh Hdeps Hid _];
    intros before r' after Heq.
  - destruct before; discriminate Heq.
  - destruct after as [| x after _] using rev_ind.
    + apply app_inj_tail in Heq as [<- <-].
      exists st. repeat split; try assumption.
      * rewrite <- (scheduled_executed _ _ _ Hsched). assumption.
      * intros d Hd. rewrite <- (scheduled_executed _ _ _ Hsched). auto.
    + rewrite app_comm_cons, app_assoc in Heq.
      apply app_inj_tail in Heq as [-> _]. eapply IH. reflexivity.
Qed.

Lemma scheduled_NoDup (subtasks : list SubTask)
    (results : list ExecutionResult) (executed : gset pystr) :
  scheduled subtasks results executed -> NoDup (succeeded results).
Proof.
  induction 1 as [| results executed st r Hsched IH _ Hfresh _ Hid _].
  - constructor.
  - rewrite (succeeded_snoc _ _ _ Hid). destruct (er_success r).
    + apply NoDup_app. split; [assumption |]. split; [| apply NoDup_singleton].
      intros x Hx ->%list_elem_of_singleton. apply Hfresh.
      rewrite (scheduled_executed _ _ _ Hsched). assumption.
    + rewrite app_nil_r. assumption.
Qed.

(** With distinct ids, no subtask of a cycle is ever dispatched. *)
Lemma scheduled_cycle (subtasks : list SubTask) (cycle : list pystr)
    (results : list ExecutionResult) (executed : gset pystr) :
  NoDup (st_id <$> subtasks) ->
  is_cycle subtasks cycle = true ->
  scheduled subtasks results executed ->
  forall x, x ∈ cycle -> (x ∉ executed) /\ results_of x results = [].
Proof.
  intros Hnd Hcycle.
  induction 1 as [| results executed st r _ IH Hin Hfresh Hdeps Hid _];
    intros x Hx.
  - split; [apply not_elem_of_empty | reflexivity].
  - assert (st_id st ∉ cycle) as Hout.
    { intros Hc.
      destruct (cycle_successor _ _ _ Hcycle Hc) as (y & Hy & Hdep).
      apply depends_on_true in Hdep as (st' & Hin' & Hid' & Hy').
      assert (st' = st) as -> by (eapply distinct_ids_inj; eauto).
      destruct (IH y Hy) as [Hny _]. apply Hny, Hdeps, Hy'. }
    destruct (IH x Hx) as [Hnx Hres]. split.
    + destruct (er_success r); [| assumption].
      intros [H | Heq%elem_of_singleton]%elem_of_union; [contradiction |].
      apply Hout. rewrite <- Heq. assumption.
    + unfold results_of in *. rewrite filter_app, Hres, filter_cons, filter_nil.
      case_decide as Heq; [| reflexivity].
      rewrite Hid in Heq. injection Heq as Heq. exfalso. apply Hout.
      rewrite Heq. assumption.
Qed.

(** ** Termination when no work function fails *)

Lemma dispatch_mono (i : nat) (s : ExecState) :
  xs_executed s ⊆ xs_executed (dispatch i s)
  /\ length (xs_subtasks (dispatch i s)) = length (xs_subtasks s).
Proof.
  destruct (xs_subtasks s !! i) as [st |] eqn:Hi.
  - destruct (dispatch_spec i s st Hi) as (r & _ & _ & _ & -> & -> & _).
    rewrite length_insert. split; [| reflexivity].
    destruct (er_success r); [apply union_subseteq_l | reflexivity].
  - unfold dispatch. rewrite Hi. split; reflexivity.
Qed.

Lemma run_ready_mono (ready : list nat) (s : ExecState) :
  xs_executed s ⊆ xs_executed (run_ready ready s)
  /\ length (xs_subtasks (run_ready ready s)) = length (xs_subtasks s).
Proof.
  revert s. induction ready as [| i ready IH]; intros s.
  - split; reflexivity.
  - change (run_ready (i :: ready) s) with (run_ready ready (dispatch i s)).
    destruct (IH (dispatch i s)) as [Hsub Hlen].
    destruct (dispatch_mono i s) as [Hsub' Hlen'].
    split; [etrans; eassumption | congruence].
Qed.

(** A round with a non-empty ready set executes at least one more id. *)
Lemma run_ready_progress (s : ExecState) (i : nat) (ready : list nat) :
  always_succeeds ->
  _get_ready_subtasks (xs_subtasks s) (xs_executed s) = i :: ready ->
  (size (xs_executed s) < size (xs_executed (run_ready (i :: ready) s)))%nat.
Proof.
  intros Hall Hready.
  destruct (_get_ready_subtasks_spec (xs_subtasks s) (xs_executed s) i)
    as (st & Hi & _ & Hfresh & _); [rewrite Hready; left |].
  change (run_ready (i :: ready) s) with (run_ready ready (dispatch i s)).
  destruct (run_ready_mono ready (dispatch i s)) as [Hsub _].
  apply subseteq_size in Hsub.
  destruct (dispatch_spec i s st Hi) as (r & _ & Hok & _ & _ & Hex & _).
  rewrite Hex, (Hok Hall), size_union, size_singleton in Hsub
    by (apply disjoint_singleton_r; assumption).
  lia.
Qed.

Lemma exec_loop_terminates (fuel : nat) (s : ExecState) :
  always_succeeds ->
  (length (xs_subtasks s) - size (xs_executed s) <= fuel)%nat ->
  exists s', exec_loop fuel s = Some s'.
Proof.
  intros Hall. revert s. induction fuel as [| fuel IH]; intros s Hfuel;
    cbn [exec_loop]; case_bool_decide as Hcond; try (eexists; reflexivity);
    destruct (_get_ready_subtasks (xs_subtasks s) (xs_executed s))
      as [| i ready] eqn:Hready; try (eexists; reflexivity).
  - lia.
  - apply IH.
    pose proof (run_ready_progress s i ready Hall Hready).
    destruct (run_ready_mono (i :: ready) s) as [_ ->]. lia.
Qed.

(** ** The executor *)

Lemma executor_process_in_rounds (fuel : nat) (self self' : Agent)
    (plan plan' : Plan) (io io' : IO) (results : list ExecutionResult) :
  executor_process fuel self plan io = Some (results, plan', self', io') ->
  exists round_start executed completed,
    in_rounds (p_subtasks plan) results round_start executed completed
    /\ ((size executed < length (p_subtasks plan))%nat ->
        logged_circular io').
Proof.
  unfold executor_process.
  destruct (exec_loop fuel _) as [s |] eqn:Hloop; [| discriminate].
  intros [= <- _ _ <-].
  apply (exec_loop_in_rounds (p_subtasks plan) _ _ _ ∅ ∅) in Hloop
      as (round_start & completed & Hrounds & Hlog); cbn.
  - exists round_start, (xs_executed s), completed. split; [assumption |].
    intros Hsize. specialize (Hlog Hsize).
    destruct (log_activity_out (xs_self s)
                (LogExecutionDone (length (p_subtasks plan))
                   (count_success true (xs_results s))
                   (count_success false (xs_results s))) (xs_io s))
      as (line & Hout & _).
    unfold logged_circular. rewrite Hout. apply Exists_app. left. assumption.
  - split; [| split]; cbn.
    + apply Forall_Forall2_diag, Forall_forall. intros st _.
      apply same_subtask_refl.
    + constructor.
    + intros i Hi. destruct (not_in_empty _ Hi).
Qed.

(** C1. Within one call of [process] on a plan whose subtasks have distinct
    ids: every result belongs to a subtask of the plan that had no successful
    result before it and whose dependencies all had one, so a subtask is
    never dispatched again once it has succeeded and a dependent is never
    dispatched before the subtask it depends on has succeeded; and no two
    successful results carry the same subtask id. *)
Theorem executor_dispatch_discipline (fuel : nat) (self self' : Agent)
    (plan plan' : Plan) (io io' : IO) (results : list ExecutionResult) :
  NoDup (st_id <$> p_subtasks plan) ->
  executor_process fuel self plan io = Some (results, plan', self', io') ->
  well_scheduled (p_subtasks plan) results /\ NoDup (succeeded results).
Proof.
  intros Hnd Hrun.
  destruct (executor_process_in_rounds _ _ _ _ _ _ _ _ Hrun)
    as (round_start & executed & completed & Hrounds & _).
  apply (in_rounds_scheduled _ Hnd) in Hrounds.
  split.
  - eapply scheduled_well_scheduled. eassumption.
  - eapply scheduled_NoDup. eassumption.
Qed.

(** C2. On a plan whose dependency relation has a cycle: whenever [process]
    returns, it has logged the circular-dependency diagnostic and fewer
    subtasks have succeeded than the plan has (if the ids of the plan are
    distinct, no subtask of the cycle has a result at all); when no work
    function fails, [process] returns within as many rounds as the plan has
    subtasks and its result list is strictly shorter than the list of
    subtasks. *)
Theorem executor_cycle_partial_results (self : Agent) (plan : Plan)
    (io : IO) (cycle : list pystr) :
  is_cycle (p_subtasks plan) cycle = true ->
  (forall fuel results plan' self' io',
     executor_process fuel self plan io = Some (results, plan', self', io') ->
     logged_circular io'
     /\ (count_success true results < length (p_subtasks plan))%nat
     /\ (NoDup (st_id <$> p_subtasks plan) ->
         forall id, id ∈ cycle -> results_of id results = []))
  /\ (always_succeeds ->
      exists results plan' self' io',
        executor_process (length (p_subtasks plan)) self plan io
        = Some (results, plan', self', io')
        /\ logged_circular io'
        /\ (length results < length (p_subtasks plan))%nat).
Proof.
  intros Hcycle.
  assert (forall fuel results plan' self' io',
            executor_process fuel self plan io
            = Some (results, plan', self', io') ->
            exists round_start executed completed,
              in_rounds (p_subtasks plan) results round_start executed
                        completed
              /\ (size completed < length (p_subtasks plan))%nat
              /\ logged_circular io') as Hrun.
  { intros fuel results plan' self' io' Hrun.
    destruct (executor_process_in_rounds _ _ _ _ _ _ _ _ Hrun)
      as (round_start & executed & completed & Hrounds & Hlog).
    assert (size completed < length (p_subtasks plan))%nat as Hsize
      by (eapply in_rounds_cycle_size; [exists cycle |]; eassumption).
    exists round_start, executed, completed.
    split; [assumption |]. split; [assumption |]. apply Hlog.
    destruct (in_rounds_count _ _ _ _ _ Hrounds) as [_ Hle]. lia. }
  split.
  - intros fuel results plan' self' io' H.
    destruct (Hrun _ _ _ _ _ H)
      as (round_start & executed & completed & Hrounds & Hsize & Hlog).
    split; [assumption |]. split.
    + destruct (in_rounds_count _ _ _ _ _ Hrounds) as [-> _]. assumption.
    + intros Hnd id Hid.
      apply (in_rounds_scheduled _ Hnd) in Hrounds.
      apply (scheduled_cycle _ _ _ _ Hnd Hcycle Hrounds id Hid).
  - intros Hall. unfold executor_process.
    destruct (exec_loop_terminates (length (p_subtasks plan))
                (mkExecState (p_subtasks plan) ∅ []
                   self (log_activity self (LogExecutionStarted (p_id plan))
                                      io))
                Hall) as (s & Hs); [cbn; lia |].
    pose proof (Hrun (length (p_subtasks plan))) as H.
    unfold executor_process in H. rewrite Hs in *.
    do 4 eexists. split; [reflexivity |].
    destruct (H _ _ _ _ eq_refl)
      as (round_start & executed & completed & Hrounds & Hsize & Hlog).
    split; [assumption |].
    rewrite (in_rounds_length _ _ _ _ _ Hall Hrounds). assumption.
Qed.

(** ** The evaluator *)

(** For an empty list of results both scores are 0. *)
Lemma verify_empty_scores (self : Agent) (task : Task) (io : IO) :
  exists vr,
    (verifier_process self [] task io).1.1 = inr vr
    /\ vr_quality_score vr = 0%Q /\ vr_accuracy_score vr = 0%Q.
Proof.
  unfold verifier_process. repeat split_io. cbn.
  eexists. split; [reflexivity |]. cbn. split; reflexivity.
Qed.

Lemma verify_lucky_testing_result :
  verify_all [lucky_testing_result]
  = inr [mkVerification (U "result-4") (1 # 1) (48 # 15) [] (U "testing")].
Proof. vm_compute. reflexivity. Qed.

(** C3. The accuracy score can exceed 1: on the single successful result of
    a testing subtask whose payload reports 15 tests executed and 48 tests
    passed (both within the ranges from which [_execute_testing] draws them
    independently), [process] returns the accuracy score 48/15 = 3.2. *)
Theorem verify_accuracy_above_one (self : Agent) (task : Task) (io : IO) :
  er_output lucky_testing_result
  = _execute_testing 15 48 90 0 (U "0.50s") (U "100MB") (U "30%")
  /\ testing_draws_in_range 15 48 90 0 = true
  /\ exists vr,
       (verifier_process self [lucky_testing_result] task io).1.1 = inr vr
       /\ (vr_accuracy_score vr == 16 # 5)%Q
       /\ ~ (vr_accuracy_score vr <= 1)%Q.
Proof.
  split; [reflexivity |]. split; [reflexivity |].
  unfold verifier_process. rewrite verify_lucky_testing_result.
  repeat split_io. cbn [fst snd].
  eexists. split; [reflexivity |]. cbn [vr_accuracy_score].
  split; [reflexivity |]. intros H. vm_compute in H. apply H. reflexivity.
Qed.

(** ** The orchestrator *)

(** C10. With a negative [max_replanning_attempts] the loop of
    [process_task] is not entered: the item is left IN_PROGRESS, no agent
    runs (nothing is logged, the agents and the system metrics are as they
    were, only the clock was read once) and the value returned is None. *)
Theorem process_task_negative_attempts (fuel : nat) (sys : MultiAgentSystem)
    (task : Task) (max_replanning_attempts : Z) (io : IO) :
  max_replanning_attempts < 0 ->
  exists io',
    process_task fuel sys task max_replanning_attempts io
    = Some (None, sys, set_task_status IN_PROGRESS task, io')
    /\ t_status (set_task_status IN_PROGRESS task) = IN_PROGRESS
    /\ io' = (io_time io).2
    /\ io_out io' = io_out io.
Proof.
  intros Hneg. unfold process_task.
  destruct (io_time io) as [start_time io'] eqn:Htime.
  exists io'. cbn [task_loop].
  destruct (Z.leb_spec 0 max_replanning_attempts); [lia |].
  cbn. repeat split.
  unfold io_time in Htime. destruct (time_time (io_world io)).
  inversion Htime. reflexivity.
Qed.

(** C9. With [max_replanning_attempts = 0], when the first verification
    comes back with [passed = false], [process_task] returns the failure
    summary: its status is "failed", it carries the issues and the
    recommendations of that verification result, the item is FAILED, and
    [replan] was not called (no line of [replan] is among the lines printed
    during the call); the system metrics record one unsuccessful item. *)
Theorem process_task_zero_attempts_fails (fuel : nat)
    (sys : MultiAgentSystem) (task : Task) (io : IO)
    (start_time : Q) (io0 io1 io2 io3 : IO) (plan plan' : Plan)
    (planner' executor' verifier' : Agent)
    (results : list ExecutionResult) (vr : VerificationResult) :
  io_time io = (start_time, io0) ->
  planner_process (planner sys) (set_task_status IN_PROGRESS task) io0
  = (plan, planner', io1) ->
  executor_process fuel (executor sys) plan io1
  = Some (results, plan', executor', io2) ->
  verifier_process (verifier sys) results
                   (set_task_status IN_PROGRESS task) io2
  = (inr vr, verifier', io3) ->
  vr_passed vr = false ->
  exists r sys' task' io',
    process_task fuel sys task 0 io
    = Some (Some (ResultFailed r), sys', task', io')
    /\ result_status (ResultFailed r) = U "failed"
    /\ fr_issues_found r = vr_issues_found vr
    /\ fr_recommendations r = vr_recommendations vr
    /\ fr_replanning_attempts r = 0
    /\ t_status task' = FAILED
    /\ logs_no_replanning io io'
    /\ system_metrics sys'
       = _update_system_metrics (fr_completion_time r) false 0
                                (system_metrics sys).
Proof.
  intros Htime Hplan Hexec Hverify Hpassed.
  unfold process_task. rewrite Htime.
  change (Z.to_nat 0) with O. cbn [task_loop Z.leb Z.compare negb Z.eqb].
  rewrite Hplan. cbn [executor]. rewrite Hexec. cbn [verifier].
  rewrite Hverify, Hpassed. cbn [Z.ltb Z.compare].
  pose proof (io_time_no_replanning io3) as Hend.
  destruct (io_time io3) as [now io4]. cbn [snd] in Hend.
  do 4 eexists. split; [reflexivity |]. cbn.
  repeat split.
  pose proof (io_time_no_replanning io) as H0. rewrite Htime in H0.
  pose proof (planner_process_no_replanning (planner sys)
                (set_task_status IN_PROGRESS task) io0) as H1.
  rewrite Hplan in H1.
  pose proof (executor_process_no_replanning _ _ _ _ _ _ _ _ Hexec) as H2.
  pose proof (verifier_process_no_replanning (verifier sys) results
                (set_task_status IN_PROGRESS task) io2) as H3.
  rewrite Hverify in H3. cbn [snd] in *.
  chain_logs.
Qed.

End Properties.

(** * The properties on concrete runs *)

Lemma reliable_always_succeeds : always_succeeds (RT := reliable_runtime).
Proof. intros strategy subtask w. do 2 eexists. reflexivity. Qed.

(** The executor of [executor_dispatch_discipline] on a plan of two chained
    subtasks, the first dispatch failing. *)
Lemma executor_dispatch_discipline_flaky :
  match executor_process (RT := flaky_runtime) 3
          (demo_agent "Execution Agent") chain_plan flaky_io with
  | Some (results, _, _, _) =>
      well_scheduled (p_subtasks chain_plan) results
      /\ NoDup (succeeded results)
  | None => False
  end.
Proof.
  destruct (executor_process (RT := flaky_runtime) 3
              (demo_agent "Execution Agent") chain_plan flaky_io)
    as [[[[results plan'] self'] io'] |] eqn:Hrun.
  - apply (executor_dispatch_discipline (RT := flaky_runtime) 3
             (demo_agent "Execution Agent") self' chain_plan plan'
             flaky_io io' results).
    + apply (bool_decide_unpack (NoDup (st_id <$> p_subtasks chain_plan))).
      vm_compute. exact I.
    + exact Hrun.
  - vm_compute in Hrun. discriminate Hrun.
Defined.

(** A subtask whose first dispatch failed is dispatched again in the next
    round, and its dependent is dispatched after it. *)
Lemma retry_after_failure :
  exists results plan' self' io',
    executor_process (RT := flaky_runtime) 3 (demo_agent "Execution Agent")
                     chain_plan flaky_io
    = Some (results, plan', self', io')
    /\ map (fun r => (er_subtask_id r, er_success r)) results
       = [ (Some (U "1"), false); (Some (U "1"), true);
           (Some (U "2"), true) ].
Proof.
  do 4 eexists. split; [vm_compute; reflexivity |]. vm_compute. reflexivity.
Qed.

(** The claim "no subtask is dispatched twice, dependents of a failed subtask
    are never dispatched" fails on that run. *)
Lemma dispatches_each_subtask_once_fails : ~ dispatches_each_subtask_once.
Proof.
  intros Hclaim.
  destruct retry_after_failure as (results & plan' & self' & io' & Hrun & Hres).
  destruct (Hclaim flaky_runtime _ _ _ _ _ _ _ _ Hrun) as [Honce _].
  specialize (Honce (demo_subtask "1" [])).
  assert (length (results_of (st_id (demo_subtask "1" [])) results) = 2%nat)
    as Htwice.
  { unfold results_of. clear -Hres.
    destruct results as [| r1 [| r2 [| r3 [| r4 rest]]]]; try discriminate Hres.
    injection Hres as H1 _ H2 _ H3 _.
    rewrite !filter_cons, filter_nil, H1, H2, H3.
    vm_compute. reflexivity. }
  rewrite Htwice in Honce.
  assert (2 <= 1)%nat; [| lia].
  apply Honce. vm_compute. left.
Qed.

(** Two subtasks that share their id are both ready in the first round and
    both dispatched: the ids of a plan have to be distinct for a successful
    result to be the only one of its id. *)
Lemma duplicate_ids_both_dispatched :
  exists results plan' self' io',
    executor_process (RT := reliable_runtime) 2
                     (demo_agent "Execution Agent") duplicate_plan reliable_io
    = Some (results, plan', self', io')
    /\ map (fun r => (er_subtask_id r, er_success r)) results
       = [ (Some (U "1"), true); (Some (U "1"), true) ].
Proof.
  do 4 eexists. split; vm_compute; reflexivity.
Qed.

(** On a plan that is only a cycle the executor returns no result at all. *)
Lemma cyclic_plan_no_result (fuel : nat) :
  exists plan' self' io',
    executor_process (RT := reliable_runtime) fuel
                     (demo_agent "Execution Agent") cyclic_plan
                     reliable_io
    = Some ([], plan', self', io').
Proof.
  destruct fuel; do 3 eexists; vm_compute; reflexivity.
Qed.

(** The claim "a plan with a cycle yields a non-empty partial result list"
    fails on that plan. *)
Lemma cycle_gives_nonempty_partial_results_fails :
  ~ cycle_gives_nonempty_partial_results.
Proof.
  intros Hclaim.
  destruct (Hclaim reliable_runtime (demo_agent "Execution Agent")
                   cyclic_plan reliable_io)
    as (fuel & results & plan' & self' & io' & Hrun & _ & Hne & _).
  - exists [U "1"; U "2"]. vm_compute. reflexivity.
  - destruct (cyclic_plan_no_result fuel) as (p & a & o & Hfact).
    rewrite Hfact in Hrun. injection Hrun as <-. apply Hne. reflexivity.
Qed.

(** When work functions fail, the free subtask of a plan with a cycle is
    dispatched until it succeeds, and the results can outnumber the
    subtasks. *)
Lemma retries_outnumber_subtasks :
  exists results plan' self' io',
    executor_process (RT := stubborn_runtime) 4
                     (demo_agent "Execution Agent") partly_cyclic_plan
                     stubborn_io
    = Some (results, plan', self', io')
    /\ map (fun r => (er_subtask_id r, er_success r)) results
       = [ (Some (U "0"), false); (Some (U "0"), false);
           (Some (U "0"), false); (Some (U "0"), true) ]
    /\ length (p_subtasks partly_cyclic_plan) = 3%nat.
Proof.
  do 4 eexists. split; [vm_compute; reflexivity |].
  split; vm_compute; reflexivity.
Qed.

(** The executor of [executor_cycle_partial_results] on a plan with one free
    subtask and a cycle of two, no work function failing. *)
Lemma executor_cycle_partial_results_reliable :
  exists results plan' self' io',
    executor_process (RT := reliable_runtime)
                     (length (p_subtasks partly_cyclic_plan))
                     (demo_agent "Execution Agent") partly_cyclic_plan
                     reliable_io
    = Some (results, plan', self', io')
    /\ logged_circular io'
    /\ (length results < length (p_subtasks partly_cyclic_plan))%nat.
Proof.
  refine (proj2 (executor_cycle_partial_results (RT := reliable_runtime)
                   (demo_agent "Execution Agent") partly_cyclic_plan
                   reliable_io [U "1"; U "2"] _)
                reliable_always_succeeds).
  vm_compute. reflexivity.
Defined.

(** [process_task_zero_attempts_fails] on a run in which every subtask
    returns an empty payload, which the evaluator rejects. *)
Lemma process_task_zero_attempts_fails_demo :
  exists vr,
    vr_passed vr = false
    /\ vr_issues_found vr = [U "Resultado vazio"]
    /\ exists r sys' task' io',
         process_task (RT := reliable_runtime) 5 demo_system demo_task 0
                      reliable_io
         = Some (Some (ResultFailed r), sys', task', io')
         /\ result_status (ResultFailed r) = U "failed"
         /\ fr_issues_found r = vr_issues_found vr
         /\ fr_recommendations r = vr_recommendations vr
         /\ fr_replanning_attempts r = 0
         /\ t_status task' = FAILED
         /\ logs_no_replanning reliable_io io'
         /\ system_metrics sys'
            = _update_system_metrics (fr_completion_time r) false 0
                                     (system_metrics demo_system).
Proof.
  eexists. split; [| split]; cycle 2.
  - eapply (process_task_zero_attempts_fails (RT := reliable_runtime) 5
              demo_system demo_task reliable_io).
    + vm_compute. reflexivity.
    + vm_compute. reflexivity.
    + vm_compute. reflexivity.
    + vm_compute. reflexivity.
    + vm_compute. reflexivity.
  - vm_compute. reflexivity.
  - vm_compute. reflexivity.
Defined.

(** [process_task_negative_attempts] with [max_replanning_attempts = -1]. *)
Lemma process_task_negative_attempts_demo :
  exists io',
    process_task (RT := reliable_runtime) 5 demo_system demo_task (-1)
                 reliable_io
    = Some (None, demo_system, set_task_status IN_PROGRESS demo_task, io')
    /\ t_status (set_task_status IN_PROGRESS demo_task) = IN_PROGRESS
    /\ io' = (io_time reliable_io).2
    /\ io_out io' = io_out reliable_io.
Proof.
  apply (process_task_negative_attempts (RT := reliable_runtime) 5
           demo_system demo_task (-1) reliable_io).
  lia.
Defined.
